(** * Faculty dashboard: the metrics synchronisation procedure of app.py

    A shallow embedding of the Flask application [app.py]: the spreadsheet
    helpers, [fetch_scholar_data] and the four routes that modify the table
    ([fetch_one], [add_faculty], [delete_faculty], [update_excel]).

    The program is effectful Python: it reads and writes two spreadsheet
    files, calls the SerpAPI service, sleeps and prints.  It is embedded as
    a state-and-exception monad over an explicit [world]; every effect
    leaves an [event] in the world's trace, so that the order of API calls
    and pacing delays can be stated. *)

From Stdlib Require Import String Ascii List ZArith Bool Arith Lia.
Import ListNotations.

Set Warnings "-register-all".

Open Scope string_scope.
Open Scope list_scope.
Open Scope nat_scope.

(** ** Strings

    Python's [str] is embedded as [string].  [in], [startswith] and
    [split] on a fixed ASCII separator are exact on UTF-8 text. *)

(** [sub in s] *)
Fixpoint contains (sub s : string) : bool :=
  String.prefix sub s ||
  match s with
  | EmptyString => false
  | String _ s' => contains sub s'
  end.

(** [s.startswith(p)] *)
Definition startswith (s p : string) : bool := String.prefix p s.

(** [s.split(sep)] for a non-empty [sep]: the text is scanned from the
    left; [skip] counts the characters of a matched separator that are
    still to be dropped and [cur] is the field being collected. *)
Fixpoint split_from (sep : string) (skip : nat) (cur s : string) : list string :=
  match s with
  | EmptyString => [cur]
  | String c s' =>
      match skip with
      | S k => split_from sep k cur s'
      | O =>
          if String.prefix sep s
          then cur :: split_from sep (String.length sep - 1) "" s'
          else split_from sep 0 (String.append cur (String c "")) s'
      end
  end.

Definition split (s sep : string) : list string := split_from sep 0 "" s.

(** ASCII instances of the three Unicode-aware library functions the
    development is parametric in ([str.lower], [str.strip] and [int] on a
    string); they agree with Python on ASCII text and are used to run the
    program on concrete tables. *)
Module Ascii7.

Definition lower_char (c : ascii) : ascii :=
  let n := nat_of_ascii c in
  if (65 <=? n) && (n <=? 90) then ascii_of_nat (n + 32) else c.

Fixpoint lower (s : string) : string :=
  match s with
  | EmptyString => EmptyString
  | String c s' => String (lower_char c) (lower s')
  end.

Definition is_space (c : ascii) : bool :=
  let n := nat_of_ascii c in
  ((9 <=? n) && (n <=? 13)) || ((28 <=? n) && (n <=? 32)).

Fixpoint lstrip (s : string) : string :=
  match s with
  | EmptyString => EmptyString
  | String c s' => if is_space c then lstrip s' else s
  end.

(** the text without its trailing white space *)
Fixpoint rstrip (s : string) : string :=
  match s with
  | EmptyString => EmptyString
  | String c s' =>
      match rstrip s' with
      | EmptyString => if is_space c then EmptyString else String c EmptyString
      | r => String c r
      end
  end.

Definition strip (s : string) : string := rstrip (lstrip s).

Definition digit (c : ascii) : option Z :=
  let n := nat_of_ascii c in
  if (48 <=? n) && (n <=? 57) then Some (Z.of_nat (n - 48)) else None.

(** decimal digits, single underscores allowed between two digits;
    [after_digit] tells whether the previous character was a digit *)
Fixpoint digits (acc : Z) (after_digit : bool) (s : string) : option Z :=
  match s with
  | EmptyString => if after_digit then Some acc else None
  | String c s' =>
      match digit c with
      | Some d => digits (10 * acc + d)%Z true s'
      | None =>
          if Ascii.eqb c "_" && after_digit
          then match s' with
               | EmptyString => None
               | String c' _ =>
                   match digit c' with
                   | Some _ => digits acc false s'
                   | None => None
                   end
               end
          else None
      end
  end.

(** [int(s)]: [None] stands for [ValueError] *)
Definition int_of_str (s : string) : option Z :=
  match strip s with
  | String "-" r => option_map Z.opp (digits 0%Z false r)
  | String "+" r => digits 0%Z false r
  | r => digits 0%Z false r
  end.

End Ascii7.

(** ** Exceptions

    The exception classes the program can meet, with the part of Python's
    class hierarchy that its [except] clauses distinguish:
    [PermissionError] and [FileNotFoundError] derive from [OSError], and
    every class derives from [Exception]. *)

Inductive exn_class : Type :=
| Exception
| OSError
| PermissionError
| FileNotFoundError
| AttributeError
| TypeError
| ValueError
| IndexError
| KeyError.

Record exn : Type := Exn { exn_cls : exn_class; exn_msg : string }.

(** [issubclass(c, d)] *)
Definition issubclass (c d : exn_class) : bool :=
  match d, c with
  | Exception, _ => true
  | OSError, (OSError | PermissionError | FileNotFoundError) => true
  | PermissionError, PermissionError => true
  | FileNotFoundError, FileNotFoundError => true
  | AttributeError, AttributeError => true
  | TypeError, TypeError => true
  | ValueError, ValueError => true
  | IndexError, IndexError => true
  | KeyError, KeyError => true
  | _, _ => false
  end.

(** [isinstance(e, cls)], the test of [except cls] *)
Definition isinstance (e : exn) (cls : exn_class) : bool :=
  issubclass (exn_cls e) cls.

(** A computation that returns or raises. *)
Inductive result (A : Type) : Type :=
| Ok (a : A)
| Raise (e : exn).

Arguments Ok {A} a.
Arguments Raise {A} e.

Definition bindR {A B : Type} (m : result A) (k : A -> result B) : result B :=
  match m with
  | Ok a => k a
  | Raise e => Raise e
  end.

Declare Scope result_scope.
Delimit Scope result_scope with res.
Bind Scope result_scope with result.

Notation "x <- m ;; k" := (bindR m (fun x => k))
  (at level 61, m at next level, right associativity) : result_scope.

(** ** Python values

    What [search.get_dict()] can hold: the values of a decoded JSON
    document.  A [dict] is the list of its items, read by the first item
    of a key.  The service reports metrics as integers; floating-point
    numbers are not modelled. *)

Inductive pyval : Type :=
| PNone
| PBool (b : bool)
| PInt (z : Z)
| PStr (s : string)
| PList (l : list pyval)
| PDict (items : list (string * pyval)).

Fixpoint lookup (key : string) (items : list (string * pyval)) : option pyval :=
  match items with
  | [] => None
  | (k, v) :: rest => if String.eqb k key then Some v else lookup key rest
  end.

(** truth value of [v], as [or], [and], [not] and [if] test it *)
Definition truthy (v : pyval) : bool :=
  match v with
  | PNone => false
  | PBool b => b
  | PInt z => negb (z =? 0)%Z
  | PStr s => negb (String.eqb s "")
  | PList l => match l with [] => false | _ => true end
  | PDict items => match items with [] => false | _ => true end
  end.

(** [a or b] *)
Definition py_or (a b : pyval) : pyval := if truthy a then a else b.

(** [d.get(key, default)]; only a [dict] has the method *)
Definition py_get (d : pyval) (key : string) (default : pyval) : result pyval :=
  match d with
  | PDict items =>
      Ok (match lookup key items with Some v => v | None => default end)
  | _ => Raise (Exn AttributeError "object has no attribute 'get'")
  end.

(** [len(v)].  The length of a [str] is counted in bytes here; the
    program only compares it with 1, 2 and 3 and a non-empty [str] fails
    at [table[0].get] under either count. *)
Definition py_len (v : pyval) : result nat :=
  match v with
  | PList l => Ok (List.length l)
  | PStr s => Ok (String.length s)
  | PDict items => Ok (List.length items)
  | _ => Raise (Exn TypeError "object has no len()")
  end.

(** [v[i]] for a natural number [i] *)
Definition py_index (v : pyval) (i : nat) : result pyval :=
  match v with
  | PList l =>
      match nth_error l i with
      | Some x => Ok x
      | None => Raise (Exn IndexError "list index out of range")
      end
  | PStr s =>
      match String.get i s with
      | Some c => Ok (PStr (String c ""))
      | None => Raise (Exn IndexError "string index out of range")
      end
  | PDict _ => Raise (Exn KeyError "integer key")
  | _ => Raise (Exn TypeError "object is not subscriptable")
  end.

(** [v == s] for a string literal [s] *)
Definition py_eq_str (v : pyval) (s : string) : bool :=
  match v with
  | PStr t => String.eqb t s
  | _ => false
  end.

(** [v == z] for an integer literal [z]; [False == 0] and [True == 1] *)
Definition py_eq_int (v : pyval) (z : Z) : bool :=
  match v with
  | PInt n => (n =? z)%Z
  | PBool b => ((if b then 1 else 0) =? z)%Z
  | _ => false
  end.

(** ** The faculty table

    A row of the spreadsheet, with the six columns of the persisted
    format.  A blank cell is read as NaN: [NaN] in a text column, [None]
    in a numeric one. *)

Inductive cell : Type :=
| NaN
| Text (s : string).

(** [str(c)] *)
Definition str (c : cell) : string :=
  match c with
  | NaN => "nan"
  | Text s => s
  end.

Record row : Type := Row {
  Sr_No : option Z;
  Name_of_Faculty : cell;
  Google_Scholar_Profile_URL : cell;
  Citations : option Z;
  h_index : option Z;
  i10_index : option Z
}.

Definition DataFrame : Type := list row.

(** The dict [fetch_scholar_data] returns, keys "Name", "Citations",
    "H-index" and "i10-index". *)
Record scholar_data : Type := ScholarData {
  d_Name : pyval;
  d_Citations : Z;
  d_H_index : Z;
  d_i10_index : Z
}.

(** ** The world *)

(** the two spreadsheet files *)
Inductive path : Type :=
| DATA_PATH
| UPDATED_PATH.

Definition path_eqb (p q : path) : bool :=
  match p, q with
  | DATA_PATH, DATA_PATH | UPDATED_PATH, UPDATED_PATH => true
  | _, _ => false
  end.

(** a file on disk: a workbook [pd.read_excel] decodes, or one it
    rejects with an exception *)
Inductive file : Type :=
| Unreadable (e : exn)
| Sheet (df : DataFrame).

(** the parameters of one [GoogleSearch] *)
Record request : Type := Request {
  engine : string;
  author_id : string;
  hl : string;
  api_key : string
}.

(** the status lines the program prints *)
Inductive log_line : Type :=
| InvalidScholarURL (profile_url : string)
| EmptyData (attempt : nat) (profile_url : string)
| Fetched (name : pyval) (citations h i10 : Z)
| ErrorAttempt (attempt : nat) (profile_url : string) (e : exn)
| FailedToFetch (profile_url : string)
| FatalError (e : exn)
| CouldNotSave (p : path)
| Updating (name : string).

Inductive event : Type :=
| Call (params : request)
| Sleep
| Print (line : log_line)
| ToExcel (p : path).

(** [files] is the content of the data directory; [write_fault p], when
    set, is the exception [to_excel] raises on [p]; [serpapi] is the
    external service: what [get_dict] yields for a request, given
    everything that happened before it; [trace] lists the effects so far,
    oldest first. *)
Record world : Type := World {
  files : path -> option file;
  write_fault : path -> option exn;
  serpapi : list event -> request -> result pyval;
  SERPAPI_KEY : string;
  trace : list event
}.

(** the world after the effects [l], in order *)
Definition emits (l : list event) (w : world) : world :=
  World (files w) (write_fault w) (serpapi w) (SERPAPI_KEY w) (trace w ++ l).

Definition emit (e : event) (w : world) : world := emits [e] w.

Definition write (p : path) (df : DataFrame) (w : world) : world :=
  World (fun q => if path_eqb q p then Some (Sheet df) else files w q)
        (write_fault w) (serpapi w) (SERPAPI_KEY w) (trace w).

(** ** The monad of the program: state and exceptions *)

Definition M (A : Type) : Type := world -> result A * world.

Definition ret {A : Type} (a : A) : M A := fun w => (Ok a, w).

Definition raise {A : Type} (e : exn) : M A := fun w => (Raise e, w).

Definition bind {A B : Type} (m : M A) (k : A -> M B) : M B :=
  fun w =>
    match m w with
    | (Ok a, w') => k a w'
    | (Raise e, w') => (Raise e, w')
    end.

(** a pure computation that may raise *)
Definition lift {A : Type} (r : result A) : M A := fun w => (r, w).

(** [try: body  except cls as e: handler e] *)
Definition try_except {A : Type} (body : M A) (cls : exn_class)
    (handler : exn -> M A) : M A :=
  fun w =>
    match body w with
    | (Raise e, w') =>
        if isinstance e cls then handler e w' else (Raise e, w')
    | r => r
    end.

Declare Scope io_scope.
Delimit Scope io_scope with io.
Bind Scope io_scope with M.

Notation "x <- m ;; k" := (bind m (fun x => k))
  (at level 61, m at next level, right associativity) : io_scope.
Notation "m ;; k" := (bind m (fun _ => k))
  (at level 61, right associativity) : io_scope.

(** [print(...)] *)
Definition print (line : log_line) : M unit :=
  fun w => (Ok tt, emit (Print line) w).

(** [time.sleep(SLEEP_BETWEEN_CALLS)], the fixed pacing delay *)
Definition sleep : M unit := fun w => (Ok tt, emit Sleep w).

(** [GoogleSearch(params).get_dict()] *)
Definition get_dict (params : request) : M pyval :=
  fun w => (serpapi w (trace w) params, emit (Call params) w).

(** [os.path.exists(p)] *)
Definition os_path_exists (p : path) : M bool :=
  fun w => (Ok (match files w p with Some _ => true | None => false end), w).

(** [load_faculty_df] *)
Definition load_faculty_df : M DataFrame :=
  fun w =>
    match files w DATA_PATH with
    | None =>
        (Raise (Exn FileNotFoundError
                  "Excel file not found at data/faculty_data.xlsx"), w)
    | Some (Unreadable e) => (Raise e, w)
    | Some (Sheet df) => (Ok df, w)
    end.

(** [save_faculty_df]: [df.to_excel(path, index=False)], a full rewrite *)
Definition save_faculty_df (df : DataFrame) (p : path) : M unit :=
  fun w =>
    match write_fault w p with
    | Some e => (Raise e, w)
    | None => (Ok tt, emit (ToExcel p) (write p df w))
    end.

(** the module-level constant [SERPAPI_KEY] *)
Definition serpapi_key : M string := fun w => (Ok (SERPAPI_KEY w), w).

(** [l[i]] on a Python list *)
Definition list_index {A : Type} (l : list A) (i : nat) : result A :=
  match nth_error l i with
  | Some x => Ok x
  | None => Raise (Exn IndexError "list index out of range")
  end.

(** how one pass through a loop body ends: at its end or at [continue],
    or at a [return] *)
Inductive loop_ctl (A : Type) : Type :=
| Continue
| Return (a : A).

Arguments Continue {A}.
Arguments Return {A} a.

(** the four values an attempt reads out of the response *)
Record raw_metrics : Type := RawMetrics {
  name : pyval;
  citations_all : pyval;
  h_index_all : pyval;
  i10_index_all : pyval
}.

(** ** Requests and pages *)

(** [request.form] *)
Definition form : Type := list (string * string).

(** [request.form.get(key, default)] *)
Fixpoint form_get (f : form) (key default : string) : string :=
  match f with
  | [] => default
  | (k, v) :: rest => if String.eqb k key then v else form_get rest key default
  end.

(** the pages the routes render, with the keyword arguments of
    [render_template] *)
Inductive response : Type :=
| result_one_error (error : string)
| result_one_data (data : scholar_data) (faculty_name url : string)
| result_one_message (message : string)
| result_all_error (error : string)
| result_all (updated total : nat) (failed_list : list string)
    (download_ready : bool).

Definition ADMIN_PASSWORD : string := "pratik123".

(** ** Data frame operations *)

(** [df[mask]] *)
Fixpoint df_select (df : DataFrame) (mask : list bool) : DataFrame :=
  match df, mask with
  | r :: df', b :: mask' =>
      if b then r :: df_select df' mask' else df_select df' mask'
  | _, _ => []
  end.

(** [df.loc[mask, col] = v], with [f] the assignment of [v] to column
    [col] of a row *)
Fixpoint loc_set (mask : list bool) (f : row -> row) (df : DataFrame) : DataFrame :=
  match df, mask with
  | r :: df', b :: mask' => (if b then f r else r) :: loc_set mask' f df'
  | _, _ => df
  end.

(** [df.at[idx, col] = v] on the default index 0, 1, ... *)
Fixpoint at_set (idx : nat) (f : row -> row) (df : DataFrame) : DataFrame :=
  match df, idx with
  | r :: df', O => f r :: df'
  | r :: df', S i => r :: at_set i f df'
  | [], _ => []
  end.

Definition set_Sr_No (v : option Z) (r : row) : row :=
  Row v (Name_of_Faculty r) (Google_Scholar_Profile_URL r)
      (Citations r) (h_index r) (i10_index r).

Definition set_Citations (v : option Z) (r : row) : row :=
  Row (Sr_No r) (Name_of_Faculty r) (Google_Scholar_Profile_URL r)
      v (h_index r) (i10_index r).

Definition set_h_index (v : option Z) (r : row) : row :=
  Row (Sr_No r) (Name_of_Faculty r) (Google_Scholar_Profile_URL r)
      (Citations r) v (i10_index r).

Definition set_i10_index (v : option Z) (r : row) : row :=
  Row (Sr_No r) (Name_of_Faculty r) (Google_Scholar_Profile_URL r)
      (Citations r) (h_index r) v.

(** [df["Sr.No"] = range(1, len(df) + 1)], assigned by position *)
Definition renumber (df : DataFrame) : DataFrame :=
  map (fun nr => set_Sr_No (Some (Z.of_nat (fst nr))) (snd nr))
      (combine (seq 1 (List.length df)) df).

(** [df.iterrows()] on the default index *)
Definition iterrows (df : DataFrame) : list (nat * row) :=
  combine (seq 0 (List.length df)) df.

(** the state of the loop of [update_excel] *)
Record sync_state : Type := SyncState {
  sync_df : DataFrame;
  updated_count : nat;
  failed_list : list string
}.

(** ** The download route *)

(** what [download_updated] answers: a plain text with a status code, or
    a file sent as an attachment *)
Inductive download : Type :=
| plain_text (body : string) (status : nat)
| attachment (p : path) (content : file).

(** [send_file(p, as_attachment=True)] *)
Definition send_file (p : path) : M download :=
  fun w =>
    match files w p with
    | Some f => (Ok (attachment p f), w)
    | None => (Raise (Exn FileNotFoundError "No such file or directory"), w)
    end.

(** route [/download_updated] *)
Definition download_updated : M download :=
  (present <- os_path_exists UPDATED_PATH ;;
   if negb present then
     ret (plain_text "Updated Excel file not found. Please run update first."
            404)
   else send_file UPDATED_PATH)%io.

(** ** Sample data

    Tables, responses and worlds on which the program is run. *)

(** a world with the given service and primary table, no snapshot, no
    write fault and an empty trace *)
Definition world_of (api : list event -> request -> result pyval)
    (table : option file) : world :=
  World (fun p => match p with DATA_PATH => table | UPDATED_PATH => None end)
        (fun _ => None) api "secret" [].

Definition scholar_url (user : string) : string :=
  "https://scholar.google.com/citations?user=" ++ user ++ "&hl=en".

(** the response of the specification's example *)
Definition j_doe : pyval :=
  PDict [("author", PDict [("name", PStr "J. Doe")]);
         ("cited_by",
          PDict [("table",
                  PList [PDict [("citations", PDict [("all", PInt 120)])];
                         PDict [("h_index", PDict [("all", PInt 9)])];
                         PDict [("i10_index", PDict [("all", PInt 4)])]])])].

(** a response without author and without metrics *)
Definition blank_response : pyval := PDict [].

(** a response whose all-time citation count is present and 0 while the
    count since 2020 is 5 *)
Definition zero_all_time : pyval :=
  PDict [("author", PDict [("name", PStr "N. Ew")]);
         ("cited_by",
          PDict [("table",
                  PList [PDict [("citations",
                                 PDict [("all", PInt 0);
                                        ("since_2020", PInt 5)])]])])].

(** a table in which two rows bear the same name up to case *)
Definition faculty_table : DataFrame :=
  [Row (Some 1%Z) (Text "Alice Rao") (Text (scholar_url "AAA")) None None None;
   Row (Some 2%Z) (Text "Bob Iyer") (Text (scholar_url "BBB"))
       (Some 50%Z) (Some 4%Z) (Some 2%Z);
   Row (Some 3%Z) (Text "ALICE RAO") (Text (scholar_url "CCC"))
       (Some 7%Z) (Some 1%Z) (Some 0%Z)].

(** the table of the bulk-sync scenario: the URL of B is the empty text *)
Definition three_rows : DataFrame :=
  [Row (Some 1%Z) (Text "A") (Text (scholar_url "AAA")) None None None;
   Row (Some 2%Z) (Text "B") (Text "") None None None;
   Row (Some 3%Z) (Text "C") (Text (scholar_url "CCC")) None None None].

(** a service that knows the profile AAA only: any other request fails
    in transport *)
Definition only_AAA (_ : list event) (p : request) : result pyval :=
  if String.eqb (author_id p) "AAA" then Ok j_doe
  else Raise (Exn Exception "connection reset").

Definition delete_form (who : string) : form :=
  [("admin_password_del", "pratik123"); ("delete_name", who)].

Definition locked : path -> option exn :=
  fun _ => Some (Exn PermissionError "Permission denied").

Definition disk_full : path -> option exn :=
  fun _ => Some (Exn OSError "No space left on device").

(** a service whose first request times out and that answers J. Doe from
    then on *)
Definition second_time_lucky (t : list event) (_ : request) : result pyval :=
  match t with
  | [] => Raise (Exn Exception "timed out")
  | _ => Ok j_doe
  end.

(** the response for a resolved profile without any metric *)
Definition new_profile : pyval :=
  PDict [("author", PDict [("name", PStr "N. Ew")])].

(** a response whose table has the h-index group first and the citations
    group second *)
Definition swapped_groups : pyval :=
  PDict [("author", PDict [("name", PStr "J. Doe")]);
         ("cited_by",
          PDict [("table",
                  PList [PDict [("h_index", PDict [("all", PInt 9)])];
                         PDict [("citations", PDict [("all", PInt 120)])]])])].

(** a table without a usable URL: a blank cell and an ftp address *)
Definition without_urls : DataFrame :=
  [Row (Some 1%Z) (Text "A") NaN None None None;
   Row (Some 2%Z) (Text "B") (Text "ftp://example.org/b")
       (Some 3%Z) (Some 1%Z) (Some 0%Z)].

Definition add_form (password who url : string) : form :=
  [("admin_password", password); ("new_name", who); ("new_url", url)].

(** the world [w] with the snapshot file [old] *)
Definition with_snapshot (old : file) (w : world) : world :=
  World (fun p => match p with UPDATED_PATH => Some old | _ => files w p end)
        (write_fault w) (serpapi w) (SERPAPI_KEY w) (trace w).

(** ** The program *)

Section Program.

(** Python's [str.lower], [str.strip] and [int] applied to a [str]
    ([None] for [ValueError]) follow Unicode tables; the program is
    embedded for any such functions and run with those of [Ascii7]. *)
Variable lower : string -> string.
Variable strip : string -> string.
Variable int_of_str : string -> option Z.

(** [int(v)] *)
Definition py_int (v : pyval) : result Z :=
  match v with
  | PInt z => Ok z
  | PBool b => Ok (if b then 1 else 0)%Z
  | PStr s =>
      match int_of_str s with
      | Some z => Ok z
      | None => Raise (Exn ValueError "invalid literal for int()")
      end
  | _ => Raise (Exn TypeError "int() argument must be a string or a number")
  end.

(** [d.get("all") or d.get("since_2020") or d.get("since_2019") or 0] *)
Definition all_or_recent (d : pyval) : result pyval :=
  (a <- py_get d "all" PNone ;;
   if truthy a then Ok a else
   b <- py_get d "since_2020" PNone ;;
   if truthy b then Ok b else
   c <- py_get d "since_2019" PNone ;;
   if truthy c then Ok c else Ok (PInt 0%Z))%res.

(** one of the three blocks [if len(table) >= k + 1: ...] of an
    attempt, for the group at position [k] and its key; the metric
    keeps its default 0 when the table is shorter *)
Definition metric_group (table : pyval) (k : nat) (key : string) : result pyval :=
  (n <- py_len table ;;
   if k + 1 <=? n then
     g <- py_index table k ;;
     d <- py_get g key (PDict []) ;;
     all_or_recent (py_or d (PDict []))
   else Ok (PInt 0%Z))%res.

(** what an attempt computes from [results], up to the emptiness test *)
Definition normalize (results : pyval) : result raw_metrics :=
  (author <- py_get results "author" (PDict []) ;;
   cited_by <- py_get results "cited_by" (PDict []) ;;
   table <- py_get cited_by "table" (PList []) ;;
   citations_all <- metric_group table 0 "citations" ;;
   h_index_all <- metric_group table 1 "h_index" ;;
   i10_index_all <- metric_group table 2 "i10_index" ;;
   name <- py_get author "name" (PStr "Unknown") ;;
   Ok (RawMetrics name citations_all h_index_all i10_index_all))%res.

(** [name == "Unknown" and citations_all == 0 and h_index_all == 0] *)
Definition looks_empty (r : raw_metrics) : bool :=
  py_eq_str (name r) "Unknown"
  && py_eq_int (citations_all r) 0
  && py_eq_int (h_index_all r) 0.

(** the body of the inner [try] for the attempt numbered [attempt] *)
Definition attempt_body (profile_url : string) (params : request)
    (attempt : nat) : M (loop_ctl scholar_data) :=
  (results <- get_dict params ;;
   r <- lift (normalize results) ;;
   if looks_empty r then
     print (EmptyData (attempt + 1) profile_url) ;;
     sleep ;;
     ret Continue
   else
     c <- lift (py_int (py_or (citations_all r) (PInt 0))) ;;
     h <- lift (py_int (py_or (h_index_all r) (PInt 0))) ;;
     i <- lift (py_int (py_or (i10_index_all r) (PInt 0))) ;;
     print (Fetched (name r) c h i) ;;
     ret (Return (ScholarData (name r) c h i)))%io.

(** [for attempt in range(retries)], from [attempt] on with [remaining]
    passes left, and the two lines after the loop *)
Fixpoint attempts (profile_url : string) (params : request)
    (attempt remaining : nat) : M (option scholar_data) :=
  match remaining with
  | O =>
      (print (FailedToFetch profile_url) ;;
       ret None)%io
  | S remaining' =>
      (ctl <- try_except (attempt_body profile_url params attempt) Exception
                (fun e =>
                   print (ErrorAttempt (attempt + 1) profile_url e) ;;
                   sleep ;;
                   ret Continue) ;;
       match ctl with
       | Return data => ret (Some data)
       | Continue => attempts profile_url params (S attempt) remaining'
       end)%io
  end.

Definition fetch_scholar_data (profile_url : string) (retries : nat)
    : M (option scholar_data) :=
  try_except
    (if negb (contains "user=" profile_url) then
       print (InvalidScholarURL profile_url) ;;
       ret None
     else
       after <- lift (list_index (split profile_url "user=") 1) ;;
       user_id <- lift (list_index (split after "&") 0) ;;
       key <- serpapi_key ;;
       attempts profile_url
         (Request "google_scholar_author" user_id "en" key) 0 retries)%io
    Exception
    (fun e =>
       print (FatalError e) ;;
       ret None)%io.

(** the default [retries=2] *)
Definition retries_default : nat := 2.

(** one entry of the mask below: whether the name of row [r], as text and
    in lower case, is [faculty_name] in lower case *)
Definition matches_name (faculty_name : string) (r : row) : bool :=
  String.eqb (lower (str (Name_of_Faculty r))) (lower faculty_name).

(** [df["Name of Faculty"].astype(str).str.lower() == faculty_name.lower()] *)
Definition name_mask (df : DataFrame) (faculty_name : string) : list bool :=
  map (matches_name faculty_name) df.

(** [try: df = load_faculty_df()  except Exception as e: return page(str(e))] *)
Definition load_or_page (page : string -> response) : M (response + DataFrame) :=
  try_except
    (df <- load_faculty_df ;;
     ret (inr df))%io
    Exception
    (fun e => ret (inl (page (exn_msg e)))).

(** [try: save_faculty_df(df, p)  except PermissionError: print(...)] *)
Definition save_or_skip (df : DataFrame) (p : path) : M unit :=
  try_except (save_faculty_df df p) PermissionError
    (fun _ => print (CouldNotSave p)).

(** route [/fetch_one] *)
Definition fetch_one (f : form) : M response :=
  let faculty_name := strip (form_get f "faculty_name" "") in
  if String.eqb faculty_name "" then
    ret (result_one_error "Please select a faculty name.")
  else
    (loaded <- load_or_page result_one_error ;;
     match loaded with
     | inl page => ret page
     | inr df =>
         let mask := name_mask df faculty_name in
         match df_select df mask with
         | [] =>
             ret (result_one_error
                    ("No faculty found with name '" ++ faculty_name ++ "'."))
         | row :: _ =>
             let url := strip (str (Google_Scholar_Profile_URL row)) in
             data <- fetch_scholar_data url retries_default ;;
             match data with
             | None =>
                 ret (result_one_error
                        "Failed to fetch data from Google Scholar.")
             | Some data =>
                 let df := loc_set mask (set_Citations (Some (d_Citations data))) df in
                 let df := loc_set mask (set_h_index (Some (d_H_index data))) df in
                 let df := loc_set mask (set_i10_index (Some (d_i10_index data))) df in
                 save_or_skip df DATA_PATH ;;
                 ret (result_one_data data faculty_name url)
             end
         end
     end)%io.

(** route [/add_faculty] *)
Definition add_faculty (f : form) : M response :=
  let admin_password := form_get f "admin_password" "" in
  let faculty_name := strip (form_get f "new_name" "") in
  let faculty_url := strip (form_get f "new_url" "") in
  if negb (String.eqb admin_password ADMIN_PASSWORD) then
    ret (result_one_error "Invalid admin password.")
  else if String.eqb faculty_name "" || String.eqb faculty_url "" then
    ret (result_one_error "Name and URL are required to add faculty.")
  else if negb (contains "scholar.google" faculty_url)
          || negb (contains "user=" faculty_url) then
    ret (result_one_error "Please enter a valid Google Scholar Profile URL.")
  else
    (loaded <- load_or_page result_one_error ;;
     match loaded with
     | inl page => ret page
     | inr df =>
         let new_row :=
           Row (Some (Z.of_nat (List.length df + 1))) (Text faculty_name)
               (Text faculty_url) None None None in
         let df := df ++ [new_row] in
         save_or_skip df DATA_PATH ;;
         ret (result_one_message
                ("Faculty '" ++ faculty_name ++ "' added successfully."))
     end)%io.

(** route [/delete_faculty].  The table always has its "Sr.No" column
    here, so the test ["Sr.No" in new_df.columns] is passed. *)
Definition delete_faculty (f : form) : M response :=
  let admin_password := form_get f "admin_password_del" "" in
  let faculty_name := strip (form_get f "delete_name" "") in
  if negb (String.eqb admin_password ADMIN_PASSWORD) then
    ret (result_one_error "Invalid admin password.")
  else if String.eqb faculty_name "" then
    ret (result_one_error "Please select a faculty to delete.")
  else
    (loaded <- load_or_page result_one_error ;;
     match loaded with
     | inl page => ret page
     | inr df =>
         let mask_keep := map negb (name_mask df faculty_name) in
         let new_df := df_select df mask_keep in
         if List.length new_df =? List.length df then
           ret (result_one_error
                  ("No faculty found with name '" ++ faculty_name ++ "'."))
         else
           let new_df := renumber new_df in
           save_or_skip new_df DATA_PATH ;;
           ret (result_one_message
                  ("Faculty '" ++ faculty_name ++ "' deleted successfully."))
     end)%io.

(** the loop [for idx, row in df.iterrows()] of [update_excel] *)
Fixpoint update_rows (rows : list (nat * row)) (st : sync_state) : M sync_state :=
  match rows with
  | [] => ret st
  | (idx, row) :: rest =>
      let name := str (Name_of_Faculty row) in
      let url := strip (str (Google_Scholar_Profile_URL row)) in
      if String.eqb url "" || negb (startswith url "http") then
        update_rows rest
          (SyncState (sync_df st) (updated_count st) (failed_list st ++ [name]))
      else
        (print (Updating name) ;;
         data <- fetch_scholar_data url retries_default ;;
         let st' :=
           match data with
           | Some data =>
               let df := at_set idx (set_Citations (Some (d_Citations data))) (sync_df st) in
               let df := at_set idx (set_h_index (Some (d_H_index data))) df in
               let df := at_set idx (set_i10_index (Some (d_i10_index data))) df in
               SyncState df (updated_count st + 1) (failed_list st)
           | None =>
               SyncState (sync_df st) (updated_count st) (failed_list st ++ [name])
           end in
         sleep ;;
         update_rows rest st')%io
  end.

(** route [/update_excel] *)
Definition update_excel : M response :=
  (loaded <- load_or_page result_all_error ;;
   match loaded with
   | inl page => ret page
   | inr df =>
       st <- update_rows (iterrows df) (SyncState df 0 []) ;;
       save_or_skip (sync_df st) UPDATED_PATH ;;
       download_ready <- os_path_exists UPDATED_PATH ;;
       ret (result_all (updated_count st) (List.length df) (failed_list st)
              download_ready)
   end)%io.

(** ** Observations on a run *)

Definition is_call (e : event) : bool :=
  match e with
  | Call _ => true
  | _ => false
  end.

(** the number of requests sent to the service in a trace *)
Definition calls (t : list event) : nat := List.length (filter is_call t).

(** the identifier [fetch_scholar_data] extracts and the request it sends *)
Definition user_id_of (profile_url : string) : string :=
  hd "" (split (nth 1 (split profile_url "user=") "") "&").

Definition params_for (profile_url : string) (w : world) : request :=
  Request "google_scholar_author" (user_id_of profile_url) "en" (SERPAPI_KEY w).

(** what the body of an attempt makes of the answer [o] of the service:
    it raises, goes on to the next attempt, or returns data *)
Definition attempt_value (o : result pyval) : result (loop_ctl scholar_data) :=
  (results <- o ;;
   r <- normalize results ;;
   if looks_empty r then Ok Continue
   else
     c <- py_int (py_or (citations_all r) (PInt 0)) ;;
     h <- py_int (py_or (h_index_all r) (PInt 0)) ;;
     i <- py_int (py_or (i10_index_all r) (PInt 0)) ;;
     Ok (Return (ScholarData (name r) c h i)))%res.

(** the status line of an attempt that did not return *)
Definition retry_line (attempt : nat) (profile_url : string)
    (v : result (loop_ctl scholar_data)) : log_line :=
  match v with
  | Raise e => ErrorAttempt attempt profile_url e
  | _ => EmptyData attempt profile_url
  end.

(** the status line of an attempt that returned [d] *)
Definition fetched_line (d : scholar_data) : log_line :=
  Fetched (d_Name d) (d_Citations d) (d_H_index d) (d_i10_index d).

(** one pass of the loop of [attempts]: the guarded body *)
Definition guarded_attempt (profile_url : string) (params : request)
    (attempt : nat) : M (loop_ctl scholar_data) :=
  try_except (attempt_body profile_url params attempt) Exception
    (fun e =>
       print (ErrorAttempt (attempt + 1) profile_url e) ;;
       sleep ;;
       ret Continue)%io.

(** ** Vocabulary of the properties *)

(** an attempt that did not return data: it raised, or looked empty *)
Definition no_data (v : result (loop_ctl scholar_data)) : Prop :=
  forall d, v <> Ok (Return d).

(** *** The choice of a metric value *)

(** the list behind a table; a table that is no list has no groups *)
Definition list_of (table : pyval) : list pyval :=
  match table with
  | PList l => l
  | _ => []
  end.

(** the metric groups of a response: [cited_by.table] *)
Definition groups_of (results : pyval) : list pyval :=
  match (cited_by <- py_get results "cited_by" (PDict []) ;;
         py_get cited_by "table" (PList []))%res with
  | Ok table => list_of table
  | Raise _ => []
  end.

(** the time windows of group [g]: the mapping under its key, none when
    the key is missing or holds no mapping *)
Definition windows_of (g : pyval) (key : string) : list (string * pyval) :=
  match g with
  | PDict items =>
      match lookup key items with
      | Some (PDict d) => d
      | _ => []
      end
  | _ => []
  end.

(** a window that gives no value: absent, or present with a value that
    counts as false (0, null, empty) *)
Definition unusable (d : list (string * pyval)) (window : string) : Prop :=
  match lookup window d with
  | Some v => truthy v = false
  | None => True
  end.

(** the value chosen among the windows of a group: all time first, then
    since 2020, then since 2019, each when it is present and counts as
    true, and 0 otherwise *)
Inductive Selects (d : list (string * pyval)) : pyval -> Prop :=
| select_all v :
    lookup "all" d = Some v -> truthy v = true -> Selects d v
| select_since_2020 v :
    unusable d "all" ->
    lookup "since_2020" d = Some v -> truthy v = true -> Selects d v
| select_since_2019 v :
    unusable d "all" -> unusable d "since_2020" ->
    lookup "since_2019" d = Some v -> truthy v = true -> Selects d v
| select_default :
    unusable d "all" -> unusable d "since_2020" -> unusable d "since_2019" ->
    Selects d (PInt 0).

(** the metric read at position [k] of the table under [key] *)
Definition Metric (groups : list pyval) (k : nat) (key : string) (v : pyval)
    : Prop :=
  match nth_error groups k with
  | None => v = PInt 0
  | Some g => Selects (windows_of g key) v
  end.

(** Following the words of the specification: the all-time value when it
    is present, else the value since 2020, else the value since 2019,
    else 0. *)
Definition all_time_when_present (d : list (string * pyval)) : pyval :=
  match lookup "all" d with
  | Some v => v
  | None =>
      match lookup "since_2020" d with
      | Some v => v
      | None =>
          match lookup "since_2019" d with
          | Some v => v
          | None => PInt 0
          end
      end
  end.

(** *** Effects that only extend the trace

    [relock wf w] is the world [w] with the write faults [wf].  A
    computation is [steady] when, from a world [w], its result and the
    effects it appends to the trace are the same whatever the write
    faults: it neither writes a file nor meets a write fault. *)

Definition relock (wf : path -> option exn) (w : world) : world :=
  World (files w) wf (serpapi w) (SERPAPI_KEY w) (trace w).

Definition steady {A : Type} (m : M A) : Prop :=
  forall w, exists r l,
    forall wf, m (relock wf w) = (r, emits l (relock wf w)).

(** a world without write faults *)
Definition writable : path -> option exn := fun _ => None.

(** a computation that never raises *)
Definition returns {A : Type} (m : M A) : Prop :=
  forall w, exists a, fst (m w) = Ok a.

(** *** Rows and operations *)

(** the three assignments of a successful fetch to one row *)
Definition with_metrics (data : scholar_data) (r : row) : row :=
  Row (Sr_No r) (Name_of_Faculty r) (Google_Scholar_Profile_URL r)
      (Some (d_Citations data)) (Some (d_H_index data))
      (Some (d_i10_index data)).

(** the row's profile URL and name as the loop reads them *)
Definition url_of (r : row) : string :=
  strip (str (Google_Scholar_Profile_URL r)).

Definition name_of (r : row) : string := str (Name_of_Faculty r).

(** the operations that save the table *)
Inductive operation : Type :=
| FetchOne (f : form)
| AddFaculty (f : form)
| DeleteFaculty (f : form)
| UpdateExcel.

Definition run (op : operation) : M response :=
  match op with
  | FetchOne f => fetch_one f
  | AddFaculty f => add_faculty f
  | DeleteFaculty f => delete_faculty f
  | UpdateExcel => update_excel
  end.

(** the file an operation saves to *)
Definition destination (op : operation) : path :=
  match op with
  | UpdateExcel => UPDATED_PATH
  | _ => DATA_PATH
  end.

(** two pages that say the same; for the page of the bulk sync: the same
    counts and failed list, [download_ready] apart, which tells whether a
    snapshot file exists *)
Definition same_report (a b : response) : Prop :=
  match a, b with
  | result_all u t fl _, result_all u' t' fl' _ => u = u' /\ t = t' /\ fl = fl'
  | _, _ => a = b
  end.

(** [tolerant R p m]: when writing to [p] raises a [PermissionError],
    [m] still returns, having only extended the trace, and what it
    returns is related by [R] to what it returns in the same world
    without write faults *)
Definition tolerant {A : Type} (R : A -> A -> Prop) (p : path) (m : M A)
    : Prop :=
  forall (w : world) (wf : path -> option exn) (e : exn),
    wf p = Some e ->
    isinstance e PermissionError = true ->
    exists a a' l,
      m (relock wf w) = (Ok a, emits l (relock wf w)) /\
      fst (m (relock writable w)) = Ok a' /\
      R a a'.

(** *** Further observations *)

Definition is_sleep (e : event) : bool :=
  match e with
  | Sleep => true
  | _ => false
  end.

(** the number of pacing delays in a trace *)
Definition sleeps (t : list event) : nat := List.length (filter is_sleep t).

(** a row the bulk sync fetches: its URL is not empty and starts with
    "http" *)
Definition usable (r : row) : bool :=
  negb (String.eqb (url_of r) "" || negb (startswith (url_of r) "http")).

(** [r'] is [r], or [r] with fetched values in its three metric columns *)
Definition metrics_only (r r' : row) : Prop :=
  r' = r \/ exists data, r' = with_metrics data r.

(** the serial numbers of a table are 1, 2, ..., N *)
Definition dense (df : DataFrame) : Prop :=
  map Sr_No df = map (fun n => Some (Z.of_nat n)) (seq 1 (List.length df)).

(** a page that reports an error *)
Definition error_page (page : response) : Prop :=
  exists msg, page = result_one_error msg \/ page = result_all_error msg.

(** [r'] is the row [r] but for its serial number *)
Definition renumbered (r r' : row) : Prop := r' = set_Sr_No (Sr_No r') r.

(** [synced w rows rows' w']: from the world [w], the bulk sync turns the
    rows [rows] into [rows'], one by one and in order, and ends in [w'].
    A row without a usable URL is kept as it is and nothing happens for
    it; for any other row the status line is printed, its URL is fetched
    in the world reached so far and the pacing delay follows: the row
    gets the values of that fetch in its three metric columns when data
    are returned, and is kept as it is when the fetch returns None. *)
Inductive synced : world -> list row -> list row -> world -> Prop :=
| synced_done w : synced w [] [] w
| synced_skipped w r rows rows' w' :
    usable r = false ->
    synced w rows rows' w' ->
    synced w (r :: rows) (r :: rows') w'
| synced_updated w r data w1 rows rows' w' :
    usable r = true ->
    fetch_scholar_data (url_of r) retries_default
      (emit (Print (Updating (name_of r))) w) = (Ok (Some data), w1) ->
    synced (emit Sleep w1) rows rows' w' ->
    synced w (r :: rows) (with_metrics data r :: rows') w'
| synced_failed w r w1 rows rows' w' :
    usable r = true ->
    fetch_scholar_data (url_of r) retries_default
      (emit (Print (Updating (name_of r))) w) = (Ok None, w1) ->
    synced (emit Sleep w1) rows rows' w' ->
    synced w (r :: rows) (r :: rows') w'.

(** ** Basic facts *)

Lemma emits_emits (l1 l2 : list event) (w : world) :
  emits l2 (emits l1 w) = emits (l1 ++ l2) w.
Proof.
  unfold emits; simpl. now rewrite app_assoc.
Qed.

Lemma emits_nil (w : world) : emits [] w = w.
Proof.
  destruct w; unfold emits; simpl. now rewrite app_nil_r.
Qed.

Lemma emit_emits (e : event) (l : list event) (w : world) :
  emit e (emits l w) = emits (l ++ [e]) w.
Proof. apply emits_emits. Qed.

Lemma emit_as_emits (e : event) (w : world) : emit e w = emits [e] w.
Proof. reflexivity. Qed.

Lemma trace_emits (l : list event) (w : world) :
  trace (emits l w) = trace w ++ l.
Proof. reflexivity. Qed.

Lemma calls_app (t1 t2 : list event) : calls (t1 ++ t2) = calls t1 + calls t2.
Proof.
  unfold calls. now rewrite filter_app, length_app.
Qed.

Lemma calls_cons (e : event) (t : list event) :
  calls (e :: t) = (if is_call e then 1 else 0) + calls t.
Proof.
  unfold calls. cbn [filter]. now destruct (is_call e).
Qed.

Lemma calls_nil : calls [] = 0.
Proof. reflexivity. Qed.

(** counts the requests of a trace extended by explicit effects *)
Ltac count_calls :=
  unfold emit;
  rewrite ?trace_emits, ?calls_app, ?calls_cons, ?calls_nil;
  cbn [is_call]; try lia.

Lemma isinstance_Exception (e : exn) : isinstance e Exception = true.
Proof. reflexivity. Qed.

(** [s.split(sep)] never yields an empty list *)
Lemma split_from_length (sep : string) (s : string) :
  forall skip cur, 1 <= List.length (split_from sep skip cur s).
Proof.
  induction s as [|c s IH]; intros skip cur; cbn [split_from].
  - simpl. lia.
  - destruct skip as [|k].
    + destruct (String.prefix sep (String c s)); [simpl; lia | apply IH].
    + apply IH.
Qed.

(** a text that contains the separator splits into at least two fields *)
Lemma split_from_contains (sep : string) (s : string) :
  sep <> "" -> contains sep s = true ->
  forall cur, 2 <= List.length (split_from sep 0 cur s).
Proof.
  intros Hsep.
  induction s as [|c s IH]; intros Hc cur.
  - simpl in Hc. destruct sep; [congruence | discriminate].
  - cbn [split_from].
    destruct (String.prefix sep (String c s)) eqn:Hp.
    + cbn [List.length]. generalize (split_from_length sep s (String.length sep - 1) ""). lia.
    + apply IH. cbn [contains] in Hc. rewrite Hp in Hc. exact Hc.
Qed.

Lemma list_index_lt {A : Type} (l : list A) (i : nat) (d : A) :
  i < List.length l -> list_index l i = Ok (nth i l d).
Proof.
  intros H. unfold list_index.
  rewrite (nth_error_nth' l d H). reflexivity.
Qed.

(** the identifier extraction cannot fail on a URL with the marker *)
Lemma user_id_extracted (profile_url : string) :
  contains "user=" profile_url = true ->
  exists after,
    list_index (split profile_url "user=") 1 = Ok after /\
    list_index (split after "&") 0 = Ok (user_id_of profile_url).
Proof.
  intros H. exists (nth 1 (split profile_url "user=") ""). split.
  - apply list_index_lt.
    apply (split_from_contains "user="); [discriminate | exact H].
  - unfold user_id_of.
    rewrite (list_index_lt _ _ "").
    + now destruct (split _ "&").
    + apply (split_from_length "&").
Qed.

(** ** One attempt *)

Ltac run_io :=
  unfold bind, ret, lift, print, sleep, get_dict, raise;
  cbn [fst snd].

(** gathers the effects of a world into one [emits] *)
Ltac gather :=
  unfold emit; rewrite ?emits_emits; cbn [app].

Lemma attempt_body_run (profile_url : string) (p : request) (k : nat) (w : world) :
  attempt_body profile_url p k w =
  match attempt_value (serpapi w (trace w) p) with
  | Ok (Return d) => (Ok (Return d), emits [Call p; Print (fetched_line d)] w)
  | Ok Continue =>
      (Ok Continue, emits [Call p; Print (EmptyData (k + 1) profile_url); Sleep] w)
  | Raise e => (Raise e, emits [Call p] w)
  end.
Proof.
  unfold attempt_body, attempt_value. run_io.
  destruct (serpapi w (trace w) p) as [results|e]; cbn [bindR]; [|reflexivity].
  destruct (normalize results) as [r|e]; cbn [bindR]; [|reflexivity].
  destruct (looks_empty r).
  - run_io. now gather.
  - run_io.
    destruct (py_int (py_or (citations_all r) (PInt 0))) as [c|e];
      cbn [bindR]; [|reflexivity].
    destruct (py_int (py_or (h_index_all r) (PInt 0))) as [h|e];
      cbn [bindR]; [|reflexivity].
    destruct (py_int (py_or (i10_index_all r) (PInt 0))) as [i|e];
      cbn [bindR]; [|reflexivity].
    now gather.
Qed.

Lemma guarded_attempt_run (profile_url : string) (p : request) (k : nat) (w : world) :
  guarded_attempt profile_url p k w =
  match attempt_value (serpapi w (trace w) p) with
  | Ok (Return d) => (Ok (Return d), emits [Call p; Print (fetched_line d)] w)
  | v =>
      (Ok Continue,
       emits [Call p; Print (retry_line (k + 1) profile_url v); Sleep] w)
  end.
Proof.
  unfold guarded_attempt, try_except. rewrite attempt_body_run.
  destruct (attempt_value (serpapi w (trace w) p)) as [[|d]|e];
    try reflexivity.
  rewrite isinstance_Exception. run_io. now gather.
Qed.

Lemma attempts_S (profile_url : string) (p : request) (k n : nat) (w : world) :
  attempts profile_url p k (S n) w =
  match guarded_attempt profile_url p k w with
  | (Ok (Return d), w') => (Ok (Some d), w')
  | (Ok Continue, w') => attempts profile_url p (S k) n w'
  | (Raise e, w') => (Raise e, w')
  end.
Proof.
  cbn [attempts]. unfold bind at 1. fold (guarded_attempt profile_url p k).
  destruct (guarded_attempt profile_url p k w) as [[[|d]|e] w']; reflexivity.
Qed.

(** the loop never raises: each of its passes is guarded *)
Lemma attempts_returns (profile_url : string) (p : request) (n : nat) :
  forall k w, exists r, fst (attempts profile_url p k n w) = Ok r.
Proof.
  induction n as [|n IH]; intros k w.
  - now exists None.
  - rewrite attempts_S, guarded_attempt_run.
    destruct (attempt_value (serpapi w (trace w) p)) as [[|d]|e].
    + apply IH.
    + now exists (Some d).
    + apply IH.
Qed.

(** the loop sends at most one request per pass *)
Lemma attempts_calls (profile_url : string) (p : request) (n : nat) :
  forall k w,
    calls (trace (snd (attempts profile_url p k n w))) <= calls (trace w) + n.
Proof.
  induction n as [|n IH]; intros k w.
  - cbn [attempts]. run_io. count_calls.
  - rewrite attempts_S, guarded_attempt_run.
    destruct (attempt_value (serpapi w (trace w) p)) as [[|d]|e].
    + eapply Nat.le_trans; [apply IH|]. count_calls.
    + cbn [snd]. count_calls.
    + eapply Nat.le_trans; [apply IH|]. count_calls.
Qed.

(** ** [fetch_scholar_data] *)

Lemma fetch_without_marker (profile_url : string) (retries : nat) (w : world) :
  contains "user=" profile_url = false ->
  fetch_scholar_data profile_url retries w =
  (Ok None, emits [Print (InvalidScholarURL profile_url)] w).
Proof.
  intros H. unfold fetch_scholar_data, try_except. rewrite H. reflexivity.
Qed.

Lemma fetch_with_marker (profile_url : string) (retries : nat) (w : world) :
  contains "user=" profile_url = true ->
  fetch_scholar_data profile_url retries w =
  attempts profile_url (params_for profile_url w) 0 retries w.
Proof.
  intros H. unfold fetch_scholar_data, try_except. rewrite H. cbn [negb].
  destruct (user_id_extracted profile_url H) as (after & H1 & H2).
  unfold bind at 1, lift at 1. rewrite H1.
  unfold bind at 1, lift at 1. rewrite H2.
  unfold bind at 1, serpapi_key. fold (params_for profile_url w).
  destruct (attempts_returns profile_url (params_for profile_url w) retries 0 w)
    as [r Hr].
  destruct (attempts profile_url (params_for profile_url w) 0 retries w)
    as [[r'|e] w']; [reflexivity | discriminate].
Qed.

(** [fetch_scholar_data] with the default two attempts, case by case on
    what the two answers of the service amount to *)
Lemma fetch_two_attempts (profile_url : string) (w : world) :
  contains "user=" profile_url = true ->
  let p := params_for profile_url w in
  let v1 := attempt_value (serpapi w (trace w) p) in
  let t1 := [Call p; Print (retry_line 1 profile_url v1); Sleep] in
  let v2 := attempt_value (serpapi w (trace w ++ t1) p) in
  fetch_scholar_data profile_url retries_default w =
  match v1 with
  | Ok (Return d) => (Ok (Some d), emits [Call p; Print (fetched_line d)] w)
  | _ =>
      match v2 with
      | Ok (Return d) =>
          (Ok (Some d), emits (t1 ++ [Call p; Print (fetched_line d)]) w)
      | _ =>
          (Ok None,
           emits (t1 ++ [Call p; Print (retry_line 2 profile_url v2); Sleep;
                         Print (FailedToFetch profile_url)]) w)
      end
  end.
Proof.
  intros H p v1 t1 v2.
  rewrite (fetch_with_marker _ _ _ H). fold p. unfold retries_default.
  rewrite attempts_S, guarded_attempt_run. fold v1.
  assert (Hsecond :
    attempts profile_url p 1 1 (emits t1 w) =
    match v2 with
    | Ok (Return d) =>
        (Ok (Some d), emits (t1 ++ [Call p; Print (fetched_line d)]) w)
    | _ =>
        (Ok None,
         emits (t1 ++ [Call p; Print (retry_line 2 profile_url v2); Sleep;
                       Print (FailedToFetch profile_url)]) w)
    end).
  { rewrite attempts_S, guarded_attempt_run.
    change (serpapi (emits t1 w)) with (serpapi w). rewrite trace_emits.
    fold v2.
    destruct v2 as [[|d]|e]; cbn [attempts]; run_io; now gather. }
  destruct v1 as [[|d]|e] eqn:E; try reflexivity; exact Hsecond.
Qed.

(** the normalised name is [author.name], "Unknown" by default *)
Lemma normalize_name (results : pyval) (r : raw_metrics) :
  normalize results = Ok r ->
  exists author,
    py_get results "author" (PDict []) = Ok author /\
    py_get author "name" (PStr "Unknown") = Ok (name r).
Proof.
  unfold normalize.
  destruct (py_get results "author" (PDict [])) as [author|]; [|discriminate].
  cbn [bindR].
  destruct (py_get results "cited_by" (PDict [])) as [cited_by|]; [|discriminate].
  cbn [bindR].
  destruct (py_get cited_by "table" (PList [])) as [table|]; [|discriminate].
  cbn [bindR].
  destruct (metric_group table 0 "citations") as [c|]; [|discriminate].
  destruct (metric_group table 1 "h_index") as [h|]; [|discriminate].
  destruct (metric_group table 2 "i10_index") as [i|]; [|discriminate].
  cbn [bindR].
  destruct (py_get author "name" (PStr "Unknown")) as [n|] eqn:En;
    [|discriminate].
  cbn [bindR]. intros E; injection E as <-. now exists author.
Qed.

(** ** The claims on [fetch_scholar_data] *)

(** C6: on a profile reference without the marker "user=", Fetch returns
    None at once: the only effect is the status line, so no request is
    sent to the service and there is no pacing delay or retry. *)
Theorem C6_no_marker_returns_None_without_call
    (profile_url : string) (retries : nat) (w : world) :
  contains "user=" profile_url = false ->
  fst (fetch_scholar_data profile_url retries w) = Ok None /\
  trace (snd (fetch_scholar_data profile_url retries w)) =
    trace w ++ [Print (InvalidScholarURL profile_url)] /\
  calls (trace (snd (fetch_scholar_data profile_url retries w))) =
    calls (trace w).
Proof.
  intros H. rewrite (fetch_without_marker _ _ _ H). cbn [fst snd].
  repeat split. count_calls.
Qed.

(** C9: whatever the input string, the number of attempts and the
    behaviour of the service, [fetch_scholar_data] does not raise: it
    returns a metrics record or None. *)
Theorem C9_fetch_never_raises (profile_url : string) (retries : nat) (w : world) :
  exists r : option scholar_data,
    fst (fetch_scholar_data profile_url retries w) = Ok r.
Proof.
  destruct (contains "user=" profile_url) eqn:H.
  - rewrite (fetch_with_marker _ _ _ H). apply attempts_returns.
  - rewrite (fetch_without_marker _ _ _ H). now exists None.
Qed.

(** C4: when the first answer of the service has [author.name] "J. Doe"
    and the three groups citations 120, h_index 9 and i10_index 4 (all
    time) in [cited_by.table], Fetch returns the record
    (J. Doe, 120, 9, 4). *)
Theorem C4_j_doe_record
    (profile_url : string) (retries : nat) (w : world)
    (top author cited_by : list (string * pyval)) :
  contains "user=" profile_url = true ->
  1 <= retries ->
  serpapi w (trace w) (params_for profile_url w) = Ok (PDict top) ->
  lookup "author" top = Some (PDict author) ->
  lookup "name" author = Some (PStr "J. Doe") ->
  lookup "cited_by" top = Some (PDict cited_by) ->
  lookup "table" cited_by =
    Some (PList [PDict [("citations", PDict [("all", PInt 120)])];
                 PDict [("h_index", PDict [("all", PInt 9)])];
                 PDict [("i10_index", PDict [("all", PInt 4)])]]) ->
  fst (fetch_scholar_data profile_url retries w) =
    Ok (Some (ScholarData (PStr "J. Doe") 120 9 4)).
Proof.
  intros H Hr Hapi Hauthor Hname Hcited Htable.
  rewrite (fetch_with_marker _ _ _ H).
  destruct retries as [|n]; [lia|].
  rewrite attempts_S, guarded_attempt_run, Hapi.
  unfold attempt_value, normalize, py_get. cbn [bindR].
  rewrite Hauthor, Hcited. cbn [bindR]. rewrite Htable, Hname.
  reflexivity.
Qed.

(** C3: Fetch sends at most two requests.  When the first answer
    normalises to the name "Unknown" with citations 0 and h-index 0, the
    attempt counts as empty: the pacing delay follows and the request is
    sent a second time; the name is "Unknown" whenever [author.name] is
    absent from the answer.  When neither attempt yields data, Fetch
    returns None. *)
Theorem C3_two_attempts_retry_on_empty
    (profile_url : string) (w : world) :
  contains "user=" profile_url = true ->
  let p := params_for profile_url w in
  let run := fetch_scholar_data profile_url retries_default w in
  calls (trace (snd run)) <= calls (trace w) + 2 /\
  (forall results r,
      serpapi w (trace w) p = Ok results ->
      normalize results = Ok r ->
      name r = PStr "Unknown" ->
      citations_all r = PInt 0 ->
      h_index_all r = PInt 0 ->
      exists rest,
        trace (snd run) =
        trace w ++ [Call p; Print (EmptyData 1 profile_url); Sleep; Call p]
                ++ rest) /\
  (forall top r,
      normalize (PDict top) = Ok r ->
      (lookup "author" top = None \/
       exists author,
         lookup "author" top = Some (PDict author) /\
         lookup "name" author = None) ->
      name r = PStr "Unknown") /\
  (forall v1 v2,
      v1 = attempt_value (serpapi w (trace w) p) ->
      v2 = attempt_value
             (serpapi w
                (trace w ++ [Call p; Print (retry_line 1 profile_url v1); Sleep])
                p) ->
      no_data v1 -> no_data v2 ->
      fst run = Ok None).
Proof.
  intros H p run. split; [|split; [|split]].
  - unfold run. rewrite (fetch_with_marker _ _ _ H). apply attempts_calls.
  - intros results r Hapi Hnorm Hname Hc Hh.
    unfold run. rewrite (fetch_two_attempts _ _ H). fold p.
    assert (E : attempt_value (serpapi w (trace w) p) = Ok Continue).
    { rewrite Hapi. unfold attempt_value. cbn [bindR]. rewrite Hnorm.
      cbn [bindR]. unfold looks_empty. now rewrite Hname, Hc, Hh. }
    rewrite E. cbn [retry_line].
    match goal with
    | |- context [match ?v with Ok _ => _ | Raise _ => _ end] =>
        destruct v as [[|d]|e]
    end; cbn [snd]; rewrite trace_emits; cbn [app]; eexists; reflexivity.
  - intros top r Hnorm Habsent.
    destruct (normalize_name _ _ Hnorm) as (author & Ha & Hn).
    cbn [py_get] in Ha. injection Ha as <-.
    destruct Habsent as [E | (a & E & En)]; rewrite E in Hn;
      cbn [py_get lookup] in Hn; [|rewrite En in Hn]; congruence.
  - intros v1 v2 E1 E2 N1 N2.
    unfold run. rewrite (fetch_two_attempts _ _ H). fold p.
    rewrite <- E1, <- E2.
    destruct v1 as [[|d1]|e1]; try (now elim (N1 d1));
      destruct v2 as [[|d2]|e2]; try (now elim (N2 d2)); reflexivity.
Qed.

(** ** The choice of a metric value (C5) *)

Lemma unusable_get (d : list (string * pyval)) (window : string) :
  truthy (match lookup window d with Some v => v | None => PNone end) = false ->
  unusable d window.
Proof.
  unfold unusable. now destruct (lookup window d).
Qed.

Lemma all_or_recent_selects (d : list (string * pyval)) (v : pyval) :
  all_or_recent (PDict d) = Ok v -> Selects d v.
Proof.
  unfold all_or_recent, py_get. cbn [bindR].
  destruct (truthy (match lookup "all" d with Some x => x | None => PNone end))
    eqn:Ta.
  { intros E; injection E as <-.
    destruct (lookup "all" d) as [a|] eqn:La; [|discriminate].
    now apply select_all. }
  apply unusable_get in Ta.
  destruct (truthy (match lookup "since_2020" d with Some x => x | None => PNone end))
    eqn:Tb.
  { intros E; injection E as <-.
    destruct (lookup "since_2020" d) as [b|] eqn:Lb; [|discriminate].
    now apply select_since_2020. }
  apply unusable_get in Tb.
  destruct (truthy (match lookup "since_2019" d with Some x => x | None => PNone end))
    eqn:Tc.
  { intros E; injection E as <-.
    destruct (lookup "since_2019" d) as [c|] eqn:Lc; [|discriminate].
    now apply select_since_2019. }
  apply unusable_get in Tc.
  intros E; injection E as <-. now apply select_default.
Qed.

Lemma all_or_recent_no_window : Selects [] (PInt 0).
Proof. now apply select_default. Qed.

Lemma metric_group_selects (table : pyval) (k : nat) (key : string) (v : pyval) :
  metric_group table k key = Ok v -> Metric (list_of table) k key v.
Proof.
  unfold metric_group, Metric.
  destruct table as [| b | z | s | l | items]; cbn [py_len bindR list_of];
    try discriminate.
  - (* a str *)
    destruct (k + 1 <=? String.length s).
    + cbn [py_index]. destruct (String.get k s); discriminate.
    + intros E; injection E as <-. now destruct k.
  - (* a list *)
    destruct (k + 1 <=? List.length l) eqn:Hk.
    + cbn [py_index]. destruct (nth_error l k) as [g|]; [|discriminate].
      cbn [bindR].
      destruct g as [| b | z | s | l' | items]; try discriminate.
      cbn [py_get bindR windows_of].
      destruct (lookup key items) as [x|].
      * destruct x as [| b | z | s | l' | d]; unfold py_or; cbn [truthy].
        -- intros E; injection E as <-. apply all_or_recent_no_window.
        -- destruct b; [discriminate|].
           intros E; injection E as <-. apply all_or_recent_no_window.
        -- destruct (negb (z =? 0)%Z); [discriminate|].
           intros E; injection E as <-. apply all_or_recent_no_window.
        -- destruct (negb (String.eqb s "")); [discriminate|].
           intros E; injection E as <-. apply all_or_recent_no_window.
        -- destruct l'; [|discriminate].
           intros E; injection E as <-. apply all_or_recent_no_window.
        -- destruct d as [|kv d]; apply all_or_recent_selects.
      * unfold py_or; cbn [truthy]. apply all_or_recent_selects.
    + intros E; injection E as <-.
      apply Nat.leb_gt in Hk.
      destruct (nth_error l k) eqn:Hn; [|reflexivity].
      assert (k < List.length l) by (apply nth_error_Some; congruence). lia.
  - (* a dict *)
    destruct (k + 1 <=? List.length items).
    + discriminate.
    + intros E; injection E as <-. now destruct k.
Qed.

(** C5, amended: in every response that an attempt can normalise, the
    metric of each group is the all-time value when that value is
    present and counts as true; the value since 2020, then the value
    since 2019, is taken when the earlier ones are absent or count as
    false (0, null); the metric is 0 when no window gives a value and
    when the table has no group at the metric's position. *)
Theorem C5_first_usable_window (results : pyval) (r : raw_metrics) :
  normalize results = Ok r ->
  Metric (groups_of results) 0 "citations" (citations_all r) /\
  Metric (groups_of results) 1 "h_index" (h_index_all r) /\
  Metric (groups_of results) 2 "i10_index" (i10_index_all r).
Proof.
  unfold normalize, groups_of.
  destruct (py_get results "author" (PDict [])) as [author|]; [|discriminate].
  cbn [bindR].
  destruct (py_get results "cited_by" (PDict [])) as [cited_by|]; [|discriminate].
  cbn [bindR].
  destruct (py_get cited_by "table" (PList [])) as [table|]; [|discriminate].
  cbn [bindR].
  destruct (metric_group table 0 "citations") as [c|] eqn:Ec; [|discriminate].
  destruct (metric_group table 1 "h_index") as [h|] eqn:Eh; [|discriminate].
  destruct (metric_group table 2 "i10_index") as [i|] eqn:Ei; [|discriminate].
  cbn [bindR].
  destruct (py_get author "name" (PStr "Unknown")) as [n|]; [|discriminate].
  cbn [bindR]. intros E; injection E as <-. cbn [citations_all h_index_all i10_index_all].
  auto using metric_group_selects.
Qed.

(** ** The effects of the program are steady *)

Lemma relock_same (w : world) : relock (write_fault w) w = w.
Proof. now destruct w. Qed.

Lemma steady_run {A : Type} (m : M A) (w : world) :
  steady m -> exists r l, m w = (r, emits l w).
Proof.
  intros Hm. destruct (Hm w) as (r & l & H).
  exists r, l. specialize (H (write_fault w)). now rewrite relock_same in H.
Qed.

Lemma steady_ret {A : Type} (a : A) : steady (ret a).
Proof.
  intros w. exists (Ok a), []. intros wf.
  unfold ret. now rewrite emits_nil.
Qed.

Lemma steady_lift {A : Type} (r : result A) : steady (lift r).
Proof.
  intros w. exists r, []. intros wf.
  unfold lift. now rewrite emits_nil.
Qed.

Lemma steady_print (line : log_line) : steady (print line).
Proof. intros w. now exists (Ok tt), [Print line]. Qed.

Lemma steady_sleep : steady sleep.
Proof. intros w. now exists (Ok tt), [Sleep]. Qed.

Lemma steady_get_dict (p : request) : steady (get_dict p).
Proof. intros w. now exists (serpapi w (trace w) p), [Call p]. Qed.

Lemma steady_load : steady load_faculty_df.
Proof.
  intros w. unfold load_faculty_df. cbn [relock files].
  destruct (files w DATA_PATH) as [[e|df]|];
    eexists; exists []; intros wf; now rewrite emits_nil.
Qed.

Lemma steady_bind {A B : Type} (m : M A) (k : A -> M B) :
  steady m -> (forall a, steady (k a)) -> steady (bind m k).
Proof.
  intros Hm Hk w. destruct (Hm w) as (r & l & H).
  destruct r as [a|e].
  - destruct (Hk a (emits l w)) as (r2 & l2 & H2).
    exists r2, (l ++ l2). intros wf. unfold bind. rewrite H.
    change (emits l (relock wf w)) with (relock wf (emits l w)).
    rewrite H2. now rewrite <- emits_emits.
  - exists (Raise e), l. intros wf. unfold bind. now rewrite H.
Qed.

Lemma steady_try_except {A : Type} (m : M A) (cls : exn_class)
    (h : exn -> M A) :
  steady m -> (forall e, steady (h e)) -> steady (try_except m cls h).
Proof.
  intros Hm Hh w. destruct (Hm w) as (r & l & H).
  destruct r as [a|e].
  - exists (Ok a), l. intros wf. unfold try_except. now rewrite H.
  - destruct (isinstance e cls) eqn:Hc.
    + destruct (Hh e (emits l w)) as (r2 & l2 & H2).
      exists r2, (l ++ l2). intros wf. unfold try_except. rewrite H, Hc.
      change (emits l (relock wf w)) with (relock wf (emits l w)).
      rewrite H2. now rewrite <- emits_emits.
    + exists (Raise e), l. intros wf. unfold try_except. now rewrite H, Hc.
Qed.

Lemma steady_serpapi_key : steady serpapi_key.
Proof.
  intros w. exists (Ok (SERPAPI_KEY w)), []. intros wf.
  unfold serpapi_key. now rewrite emits_nil.
Qed.

Create HintDb steady.

#[local] Hint Resolve steady_ret steady_lift steady_print steady_sleep
  steady_get_dict steady_load steady_serpapi_key : steady.

(** applies the composition lemmas down to the primitive effects *)
Ltac steady_tac :=
  repeat first
    [ apply steady_bind; [|intros ?]
    | apply steady_try_except; [|intros ?]
    | solve [auto with steady]
    | match goal with
      | |- steady (if ?b then _ else _) => destruct b
      | |- steady (match ?x with _ => _ end) => destruct x
      end ].

Lemma steady_attempt_body (profile_url : string) (p : request) (k : nat) :
  steady (attempt_body profile_url p k).
Proof. unfold attempt_body. steady_tac. Qed.

Lemma steady_attempts (profile_url : string) (p : request) (n : nat) :
  forall k, steady (attempts profile_url p k n).
Proof.
  induction n as [|n IH]; intros k; cbn [attempts].
  - steady_tac.
  - apply steady_bind.
    + apply steady_try_except; [apply steady_attempt_body|]. intros e. steady_tac.
    + intros [|d]; [apply IH | apply steady_ret].
Qed.

Lemma steady_fetch (profile_url : string) (retries : nat) :
  steady (fetch_scholar_data profile_url retries).
Proof.
  unfold fetch_scholar_data.
  apply steady_try_except; [|intros e; steady_tac].
  destruct (negb (contains "user=" profile_url)); [steady_tac|].
  repeat (apply steady_bind; [auto with steady|intros ?]).
  apply steady_attempts.
Qed.

Lemma steady_update_rows (rows : list (nat * row)) :
  forall st, steady (update_rows rows st).
Proof.
  induction rows as [|[idx row] rows IH]; intros st; cbn [update_rows].
  - apply steady_ret.
  - match goal with |- steady (if ?b then _ else _) => destruct b end.
    + apply IH.
    + apply steady_bind; [apply steady_print|intros _].
      apply steady_bind; [apply steady_fetch|intros data].
      apply steady_bind; [apply steady_sleep|intros _].
      apply IH.
Qed.

Lemma steady_load_or_page (page : string -> response) :
  steady (load_or_page page).
Proof. unfold load_or_page. steady_tac. Qed.

(** ** Facts on data frames *)

Lemma df_select_map (f : row -> bool) (df : DataFrame) :
  df_select df (map f df) = filter f df.
Proof.
  induction df as [|r df IH]; cbn [df_select map filter]; [reflexivity|].
  now rewrite IH.
Qed.

(** the rows [delete_faculty] keeps *)
Lemma mask_keep_select (faculty_name : string) (df : DataFrame) :
  df_select df (map negb (name_mask df faculty_name)) =
  filter (fun r => negb (matches_name faculty_name r)) df.
Proof.
  unfold name_mask. rewrite map_map. apply df_select_map.
Qed.

Lemma filter_shorter {A : Type} (f : A -> bool) (l : list A) :
  List.length (filter f l) <= List.length l.
Proof.
  induction l as [|x l IH]; cbn [filter List.length]; [lia|].
  destruct (f x); cbn [List.length]; lia.
Qed.

Lemma filter_drops {A : Type} (f : A -> bool) (l : list A) (x : A) :
  In x l -> f x = false -> List.length (filter f l) < List.length l.
Proof.
  induction l as [|y l IH]; intros Hin Hx; [contradiction|].
  cbn [filter List.length]. destruct Hin as [->|Hin].
  - rewrite Hx. generalize (filter_shorter f l). lia.
  - specialize (IH Hin Hx). destruct (f y); cbn [List.length]; lia.
Qed.

(** rows that match and rows that do not add up to the table *)
Lemma filter_partition {A : Type} (f : A -> bool) (l : list A) :
  List.length (filter (fun x => negb (f x)) l) + List.length (filter f l) =
  List.length l.
Proof.
  induction l as [|x l IH]; cbn [filter List.length]; [reflexivity|].
  destruct (f x); cbn [negb List.length]; lia.
Qed.

Lemma renumber_from (t : DataFrame) :
  forall start,
    map Sr_No
      (map (fun nr => set_Sr_No (Some (Z.of_nat (fst nr))) (snd nr))
           (combine (seq start (List.length t)) t)) =
    map (fun n => Some (Z.of_nat n)) (seq start (List.length t)).
Proof.
  induction t as [|r t IH]; intros start; cbn [List.length seq combine map];
    [reflexivity|].
  now rewrite IH.
Qed.

Lemma renumber_Sr_No (t : DataFrame) :
  map Sr_No (renumber t) =
  map (fun n => Some (Z.of_nat n)) (seq 1 (List.length t)).
Proof. apply renumber_from. Qed.

Lemma renumber_length (t : DataFrame) :
  List.length (renumber t) = List.length t.
Proof.
  unfold renumber. rewrite length_map, length_combine, length_seq. lia.
Qed.

(** renumbering touches the serial number only *)
Lemma renumber_In (t : DataFrame) (r : row) :
  In r (renumber t) ->
  exists r0 n, In r0 t /\ r = set_Sr_No n r0.
Proof.
  unfold renumber. intros H. apply in_map_iff in H.
  destruct H as ([n r0] & <- & Hin). apply in_combine_r in Hin.
  now exists r0, (Some (Z.of_nat n)).
Qed.

(** the renumbered table has the rows of the table, in order, each with
    its serial number replaced and nothing else changed *)
Lemma renumber_renumbered (t : DataFrame) :
  Forall2 renumbered t (renumber t).
Proof.
  unfold renumber. generalize 1 as start.
  induction t as [|r t IH]; intros start; cbn [List.length seq combine map].
  - constructor.
  - constructor; [reflexivity | apply IH].
Qed.

(** ** [delete_faculty] *)

Lemma load_or_page_sheet (page : string -> response) (w : world)
    (df : DataFrame) :
  files w DATA_PATH = Some (Sheet df) ->
  load_or_page page w = (Ok (inr df), w).
Proof.
  intros H. unfold load_or_page, try_except, bind, load_faculty_df.
  now rewrite H.
Qed.

Lemma save_or_skip_run (df : DataFrame) (p : path) (w : world) :
  save_or_skip df p w =
  match write_fault w p with
  | None => (Ok tt, emit (ToExcel p) (write p df w))
  | Some e =>
      if isinstance e PermissionError
      then (Ok tt, emit (Print (CouldNotSave p)) w)
      else (Raise e, w)
  end.
Proof.
  unfold save_or_skip, try_except, save_faculty_df.
  destruct (write_fault w p) as [e|]; [|reflexivity].
  now destruct (isinstance e PermissionError).
Qed.

Lemma delete_faculty_run (f : form) (w : world) (df : DataFrame) :
  form_get f "admin_password_del" "" = ADMIN_PASSWORD ->
  let faculty_name := strip (form_get f "delete_name" "") in
  faculty_name <> "" ->
  files w DATA_PATH = Some (Sheet df) ->
  let kept := filter (fun r => negb (matches_name faculty_name r)) df in
  let done :=
    result_one_message ("Faculty '" ++ faculty_name ++ "' deleted successfully.") in
  delete_faculty f w =
  if List.length kept =? List.length df then
    (Ok (result_one_error ("No faculty found with name '" ++ faculty_name ++ "'.")),
     w)
  else
    match write_fault w DATA_PATH with
    | None =>
        (Ok done, emit (ToExcel DATA_PATH) (write DATA_PATH (renumber kept) w))
    | Some e =>
        if isinstance e PermissionError
        then (Ok done, emit (Print (CouldNotSave DATA_PATH)) w)
        else (Raise e, w)
    end.
Proof.
  intros Hpw faculty_name Hname Hfile kept done.
  unfold delete_faculty. rewrite Hpw, String.eqb_refl. cbn [negb].
  fold faculty_name. apply String.eqb_neq in Hname. rewrite Hname.
  unfold bind at 1. rewrite (load_or_page_sheet _ _ _ Hfile).
  rewrite mask_keep_select. fold kept.
  destruct (List.length kept =? List.length df); [reflexivity|].
  unfold bind. rewrite save_or_skip_run.
  destruct (write_fault w DATA_PATH) as [e|]; [|reflexivity].
  now destruct (isinstance e PermissionError).
Qed.

(** C7: whenever the delete operation removes at least one row, the table
    it leaves is made of the rows that do not bear the name, in their
    order and with nothing but the serial number changed, and it has the
    serial numbers 1, 2, ..., N in this order, N being the number of
    these remaining rows (possibly 0). *)
Theorem C7_delete_renumbers_densely (f : form) (w : world) (df : DataFrame) :
  form_get f "admin_password_del" "" = ADMIN_PASSWORD ->
  let faculty_name := strip (form_get f "delete_name" "") in
  faculty_name <> "" ->
  files w DATA_PATH = Some (Sheet df) ->
  write_fault w DATA_PATH = None ->
  (exists r, In r df /\ matches_name faculty_name r = true) ->
  let remaining := filter (fun r => negb (matches_name faculty_name r)) df in
  exists new_df,
    files (snd (delete_faculty f w)) DATA_PATH = Some (Sheet new_df) /\
    Forall2 renumbered remaining new_df /\
    List.length new_df = List.length remaining /\
    List.length new_df < List.length df /\
    map Sr_No new_df =
      map (fun n => Some (Z.of_nat n)) (seq 1 (List.length new_df)).
Proof.
  intros Hpw faculty_name Hname Hfile Hwrite (r & Hin & Hr) remaining.
  rewrite (delete_faculty_run f w df Hpw Hname Hfile). fold faculty_name.
  fold remaining.
  assert (Hlt : List.length remaining < List.length df).
  { apply (filter_drops _ df r Hin). now rewrite Hr. }
  destruct (Nat.eqb_spec (List.length remaining) (List.length df)) as [E|_];
    [lia|].
  rewrite Hwrite. exists (renumber remaining). cbn [snd].
  split; [reflexivity|]. split; [apply renumber_renumbered|].
  rewrite renumber_length.
  split; [reflexivity|]. split; [exact Hlt | apply renumber_Sr_No].
Qed.

(** C10: when two or more rows match the requested name without regard
    to case, one delete removes all of them: the table it leaves is the
    rows that do not match, in their order and renumbered; none of its
    rows matches. *)
Theorem C10_delete_removes_every_match (f : form) (w : world) (df : DataFrame) :
  form_get f "admin_password_del" "" = ADMIN_PASSWORD ->
  let faculty_name := strip (form_get f "delete_name" "") in
  faculty_name <> "" ->
  files w DATA_PATH = Some (Sheet df) ->
  write_fault w DATA_PATH = None ->
  2 <= List.length (filter (matches_name faculty_name) df) ->
  let new_df := renumber (filter (fun r => negb (matches_name faculty_name r)) df) in
  files (snd (delete_faculty f w)) DATA_PATH = Some (Sheet new_df) /\
  (forall r, In r new_df -> matches_name faculty_name r = false) /\
  List.length new_df + List.length (filter (matches_name faculty_name) df) =
    List.length df.
Proof.
  intros Hpw faculty_name Hname Hfile Hwrite Htwo new_df.
  rewrite (delete_faculty_run f w df Hpw Hname Hfile). fold faculty_name.
  set (kept := filter (fun r => negb (matches_name faculty_name r)) df) in *.
  assert (Hsum := filter_partition (matches_name faculty_name) df).
  fold kept in Hsum.
  destruct (Nat.eqb_spec (List.length kept) (List.length df)) as [E|_]; [lia|].
  rewrite Hwrite. cbn [snd]. split; [reflexivity|]. split.
  - intros r Hr. apply renumber_In in Hr. destruct Hr as (r0 & n & Hin & ->).
    apply filter_In in Hin. destruct Hin as [_ Hneg].
    apply negb_true_iff in Hneg. exact Hneg.
  - unfold new_df. now rewrite renumber_length.
Qed.

(** ** Outcomes of [fetch_scholar_data] *)

Lemma fetch_returns (profile_url : string) (retries : nat) (w : world) :
  exists r l,
    fetch_scholar_data profile_url retries w = (Ok r, emits l w).
Proof.
  destruct (steady_run _ w (steady_fetch profile_url retries)) as (r & l & H).
  rewrite H. destruct (contains "user=" profile_url) eqn:Hm.
  - rewrite (fetch_with_marker _ _ _ Hm) in H.
    destruct (attempts_returns profile_url (params_for profile_url w) retries 0 w)
      as [r' Hr'].
    rewrite H in Hr'. cbn [fst] in Hr'. subst r. now exists r', l.
  - rewrite (fetch_without_marker _ _ _ Hm) in H.
    injection H as <- _. now exists None, l.
Qed.


Lemma startswith_nonempty (s p : string) :
  p <> "" -> startswith s p = true -> String.eqb s "" = false.
Proof.
  intros Hp H. destruct s; [|reflexivity].
  unfold startswith in H. destruct p; [congruence | discriminate].
Qed.

(** ** [update_excel] on three rows (C2) *)

Lemma at_set_metrics (data : scholar_data) (df : DataFrame) :
  forall idx,
    at_set idx (set_i10_index (Some (d_i10_index data)))
      (at_set idx (set_h_index (Some (d_H_index data)))
         (at_set idx (set_Citations (Some (d_Citations data))) df)) =
    at_set idx (with_metrics data) df.
Proof.
  induction df as [|x df IH]; intros [|idx]; cbn [at_set]; try reflexivity.
  now rewrite IH.
Qed.

(** a row without a usable URL is listed as failed, without a fetch *)
Lemma update_rows_skip (idx : nat) (r : row) (rows : list (nat * row))
    (st : sync_state) (w : world) :
  String.eqb (url_of r) "" || negb (startswith (url_of r) "http") = true ->
  update_rows ((idx, r) :: rows) st w =
  update_rows rows
    (SyncState (sync_df st) (updated_count st) (failed_list st ++ [name_of r])) w.
Proof.
  intros H. cbn [update_rows]. fold (url_of r). now rewrite H.
Qed.

(** a row with a usable URL is fetched; the pacing delay follows *)
Lemma update_rows_fetch (idx : nat) (r : row) (rows : list (nat * row))
    (st : sync_state) (w : world) :
  startswith (url_of r) "http" = true ->
  update_rows ((idx, r) :: rows) st w =
  match fetch_scholar_data (url_of r) retries_default
          (emit (Print (Updating (name_of r))) w) with
  | (Ok (Some data), w1) =>
      update_rows rows
        (SyncState (at_set idx (with_metrics data) (sync_df st))
                   (updated_count st + 1) (failed_list st))
        (emit Sleep w1)
  | (Ok None, w1) =>
      update_rows rows
        (SyncState (sync_df st) (updated_count st)
                   (failed_list st ++ [name_of r]))
        (emit Sleep w1)
  | (Raise e, w1) => (Raise e, w1)
  end.
Proof.
  intros H. cbn [update_rows]. fold (url_of r) (name_of r).
  rewrite (startswith_nonempty (url_of r) "http") by (discriminate || exact H).
  rewrite H. cbn [negb orb]. unfold bind, print, sleep.
  destruct (fetch_scholar_data (url_of r) retries_default
              (emit (Print (Updating (name_of r))) w)) as [[[data|]|e] w1];
    try reflexivity.
  now rewrite at_set_metrics.
Qed.


(** ** [fetch_one] *)

Lemma loc_set_map (m : row -> bool) (f : row -> row) (df : DataFrame) :
  loc_set (map m df) f df = map (fun r => if m r then f r else r) df.
Proof.
  induction df as [|r df IH]; cbn [loc_set map]; [reflexivity|].
  now rewrite IH.
Qed.

Lemma loc_set_metrics (m : row -> bool) (data : scholar_data) (df : DataFrame) :
  loc_set (map m df) (set_i10_index (Some (d_i10_index data)))
    (loc_set (map m df) (set_h_index (Some (d_H_index data)))
       (loc_set (map m df) (set_Citations (Some (d_Citations data))) df)) =
  map (fun r => if m r then with_metrics data r else r) df.
Proof.
  induction df as [|r df IH]; cbn [loc_set map]; [reflexivity|].
  rewrite IH. now destruct (m r).
Qed.

(** the single-record sync fetches the profile of the first matching row
    and assigns the result to every row of the mask *)
Lemma fetch_one_run (f : form) (w : world) (df : DataFrame)
    (first : row) (others : list row) (data : scholar_data) :
  let faculty_name := strip (form_get f "faculty_name" "") in
  faculty_name <> "" ->
  files w DATA_PATH = Some (Sheet df) ->
  filter (matches_name faculty_name) df = first :: others ->
  fst (fetch_scholar_data (url_of first) retries_default w) = Ok (Some data) ->
  write_fault w DATA_PATH = None ->
  fst (fetch_one f w) =
    Ok (result_one_data data faculty_name (url_of first)) /\
  files (snd (fetch_one f w)) DATA_PATH =
    Some (Sheet (map (fun r => if matches_name faculty_name r
                               then with_metrics data r else r) df)).
Proof.
  intros faculty_name Hname Hfile Hmatch Hfetch Hwrite.
  assert (E : exists l,
    fetch_one f w =
    (Ok (result_one_data data faculty_name (url_of first)),
     emits [ToExcel DATA_PATH]
       (write DATA_PATH
          (map (fun r => if matches_name faculty_name r
                         then with_metrics data r else r) df)
          (emits l w)))).
  { unfold fetch_one. fold faculty_name.
    apply String.eqb_neq in Hname. rewrite Hname.
    unfold bind at 1. rewrite (load_or_page_sheet _ _ _ Hfile).
    unfold name_mask. rewrite df_select_map, Hmatch.
    fold (url_of first).
    destruct (fetch_returns (url_of first) retries_default w) as (r & l & EF).
    rewrite EF in Hfetch. cbn [fst] in Hfetch. injection Hfetch as ->.
    unfold bind at 1. rewrite EF. rewrite loc_set_metrics.
    unfold bind, ret. rewrite save_or_skip_run.
    cbn [write_fault emits]. rewrite Hwrite.
    exists l. reflexivity. }
  destruct E as [l E]. rewrite E. now split.
Qed.

(** ** Saving under a write fault (C8) *)

Lemma same_report_refl (a : response) : same_report a a.
Proof. destruct a; cbn; auto. Qed.

Lemma steady_returns {A : Type} (m : M A) (w : world) :
  steady m -> returns m ->
  exists a l, forall wf, m (relock wf w) = (Ok a, emits l (relock wf w)).
Proof.
  intros Hm Hr. destruct (Hr w) as [a Ha]. destruct (Hm w) as (r & l & H).
  exists a, l. intros wf.
  assert (E := H (write_fault w)). rewrite relock_same in E.
  rewrite E in Ha. cbn [fst] in Ha. subst r. apply H.
Qed.

Lemma returns_fetch (profile_url : string) (retries : nat) :
  returns (fetch_scholar_data profile_url retries).
Proof.
  intros w. destruct (fetch_returns profile_url retries w) as (r & l & E).
  exists r. now rewrite E.
Qed.

Lemma returns_update_rows (rows : list (nat * row)) :
  forall st, returns (update_rows rows st).
Proof.
  induction rows as [|[idx r] rows IH]; intros st w; cbn [update_rows].
  - now exists st.
  - match goal with |- context [if ?b then _ else _] => destruct b end.
    + apply IH.
    + unfold bind at 1, print. unfold bind at 1.
      match goal with
      | |- context [fetch_scholar_data ?u ?n ?w1] =>
          destruct (fetch_returns u n w1) as (d & l & E); rewrite E
      end.
      unfold bind at 1, sleep. apply IH.
Qed.

Lemma load_or_page_run (page : string -> response) (w : world) :
  load_or_page page w =
  (Ok match files w DATA_PATH with
      | None => inl (page "Excel file not found at data/faculty_data.xlsx")
      | Some (Unreadable e) => inl (page (exn_msg e))
      | Some (Sheet df) => inr df
      end, w).
Proof.
  unfold load_or_page, try_except, bind, load_faculty_df.
  now destruct (files w DATA_PATH) as [[e|df]|].
Qed.

Lemma returns_load_or_page (page : string -> response) :
  returns (load_or_page page).
Proof.
  intros w. rewrite load_or_page_run. eexists. reflexivity.
Qed.

Lemma tolerant_ret {A : Type} (R : A -> A -> Prop) (p : path) (a : A) :
  R a a -> tolerant R p (ret a).
Proof.
  intros Ha w wf e _ _. exists a, a, []. rewrite emits_nil. now repeat split.
Qed.

(** steps before the save are the same with and without the fault *)
Lemma tolerant_bind {A B : Type} (R : B -> B -> Prop) (p : path)
    (m : M A) (k : A -> M B) :
  steady m -> returns m -> (forall a, tolerant R p (k a)) ->
  tolerant R p (bind m k).
Proof.
  intros Hs Hr Hk w wf e Hf He.
  destruct (steady_returns m w Hs Hr) as (a & l & H).
  destruct (Hk a (emits l w) wf e Hf He) as (b & b' & l2 & H1 & H2 & HR).
  exists b, b', (l ++ l2). unfold bind. rewrite !H.
  change (emits l (relock wf w)) with (relock wf (emits l w)).
  change (emits l (relock writable w)) with (relock writable (emits l w)).
  rewrite H1. split; [|split; [exact H2 | exact HR]].
  now rewrite <- emits_emits.
Qed.

(** the save, followed by the rendering of a page *)
Lemma tolerant_save_then_page (df : DataFrame) (p : path) (page : response) :
  tolerant same_report p (save_or_skip df p ;; ret page)%io.
Proof.
  intros w wf e Hf He. exists page, page, [Print (CouldNotSave p)].
  unfold bind. rewrite !save_or_skip_run.
  cbn [write_fault relock writable]. rewrite Hf, He.
  repeat split. apply same_report_refl.
Qed.

(** the save of the bulk sync, followed by the test for the snapshot
    file and the rendering of the report *)
Lemma tolerant_save_then_report (df : DataFrame) (u t : nat) (fl : list string) :
  tolerant same_report UPDATED_PATH
    (save_or_skip df UPDATED_PATH ;;
     download_ready <- os_path_exists UPDATED_PATH ;;
     ret (result_all u t fl download_ready))%io.
Proof.
  intros w wf e Hf He.
  exists (result_all u t fl
            (match files w UPDATED_PATH with Some _ => true | None => false end)),
         (result_all u t fl true), [Print (CouldNotSave UPDATED_PATH)].
  unfold bind. rewrite !save_or_skip_run.
  cbn [write_fault relock writable]. rewrite Hf, He.
  repeat split.
Qed.

Create HintDb tolerant.

#[local] Hint Resolve steady_load_or_page returns_load_or_page steady_fetch
  returns_fetch steady_update_rows returns_update_rows same_report_refl
  tolerant_save_then_page tolerant_save_then_report : tolerant.

(** follows the structure of a route down to its save *)
Ltac tolerant_tac :=
  repeat first
    [ apply tolerant_ret; apply same_report_refl
    | solve [auto with tolerant]
    | apply tolerant_bind; [auto with tolerant | auto with tolerant | intros ?]
    | match goal with
      | |- tolerant _ _ (if ?b then _ else _) => destruct b
      | |- tolerant _ _ (match ?x with _ => _ end) => destruct x
      | |- tolerant _ _ (let _ := _ in _) => cbv zeta
      end ].

Lemma fetch_one_tolerant (f : form) :
  tolerant same_report DATA_PATH (fetch_one f).
Proof. unfold fetch_one. tolerant_tac. Qed.

Lemma add_faculty_tolerant (f : form) :
  tolerant same_report DATA_PATH (add_faculty f).
Proof. unfold add_faculty. tolerant_tac. Qed.

Lemma delete_faculty_tolerant (f : form) :
  tolerant same_report DATA_PATH (delete_faculty f).
Proof. unfold delete_faculty. tolerant_tac. Qed.

Lemma update_excel_tolerant :
  tolerant same_report UPDATED_PATH update_excel.
Proof. unfold update_excel. tolerant_tac. Qed.

(** C8, amended: for each operation that saves the table, a save that
    fails with a [PermissionError] (the file is locked) is not fatal:
    the operation returns a page and raises nothing, the page is the one
    it returns when the save goes through (for the bulk sync: the same
    counts and failed list), and no file is changed. *)
Theorem C8_permission_error_is_not_fatal
    (op : operation) (w : world) (e : exn) :
  write_fault w (destination op) = Some e ->
  isinstance e PermissionError = true ->
  exists page page',
    fst (run op w) = Ok page /\
    fst (run op (relock writable w)) = Ok page' /\
    same_report page page' /\
    files (snd (run op w)) = files w.
Proof.
  intros Hf He.
  assert (T : tolerant same_report (destination op) (run op)).
  { destruct op; cbn [run destination].
    - apply fetch_one_tolerant.
    - apply add_faculty_tolerant.
    - apply delete_faculty_tolerant.
    - apply update_excel_tolerant. }
  destruct (T w (write_fault w) e Hf He) as (page & page' & l & H1 & H2 & HR).
  rewrite relock_same in H1.
  change (relock writable (relock (write_fault w) w)) with (relock writable w) in H2.
  exists page, page'. rewrite H1. now repeat split.
Qed.

(** ** The extracted identifier *)

Lemma append_assoc_s (a b c : string) :
  ((a ++ b) ++ c)%string = (a ++ (b ++ c))%string.
Proof.
  induction a as [|x a IH]; cbn [String.append]; [reflexivity|].
  now rewrite IH.
Qed.

Lemma prefix_split (p s : string) :
  String.prefix p s = true -> exists post, s = (p ++ post)%string.
Proof.
  revert s. induction p as [|a p IH]; intros s H.
  - now exists s.
  - destruct s as [|b s]; [discriminate|]. cbn [String.prefix] in H.
    destruct (ascii_dec a b) as [->|]; [|discriminate].
    destruct (IH s H) as [post ->]. now exists post.
Qed.

Lemma prefix_app (p a b : string) :
  String.prefix p a = true -> String.prefix p (a ++ b)%string = true.
Proof.
  revert a. induction p as [|x p IH]; intros a H; [now destruct (a ++ b)%string|].
  destruct a as [|y a]; [discriminate|]. cbn [String.prefix String.append] in *.
  destruct (ascii_dec x y); [now apply IH | discriminate].
Qed.

Lemma contains_app (p a b : string) :
  contains p a = true -> contains p (a ++ b)%string = true.
Proof.
  induction a as [|y a IH]; intros H.
  - cbn [contains] in H. rewrite orb_false_r in H.
    destruct p; [|discriminate]. now destruct b.
  - cbn [contains String.append] in *. apply orb_true_iff in H.
    apply orb_true_iff. destruct H as [H|H].
    + left. now apply (prefix_app p (String y a) b).
    + right. now apply IH.
Qed.

(** the characters of a matched separator are dropped *)
Lemma split_from_skip (sep t post cur : string) :
  split_from sep (String.length t) cur (t ++ post)%string =
  split_from sep 0 cur post.
Proof.
  induction t as [|c t IH]; [reflexivity|].
  cbn [String.length String.append split_from]. exact IH.
Qed.

(** the first field of a split: the text up to the first separator *)
Lemma first_field (sep : string) :
  sep <> "" ->
  forall s cur, exists pre rest,
    hd "" (split_from sep 0 cur s) = (cur ++ pre)%string /\
    s = (pre ++ rest)%string /\
    contains sep pre = false /\
    (rest = "" \/ String.prefix sep rest = true).
Proof.
  intros Hsep.
  assert (Hnil : contains sep "" = false)
    by (destruct sep; [congruence | reflexivity]).
  induction s as [|c s IH]; intros cur.
  - exists "", "". cbn [split_from hd].
    repeat split; auto. clear. induction cur; cbn; congruence.
  - cbn [split_from]. destruct (String.prefix sep (String c s)) eqn:Hp.
    + exists "", (String c s). cbn [hd]. repeat split; auto.
      clear. induction cur; cbn; congruence.
    + destruct (IH (cur ++ String c "")%string) as (pre & rest & H1 & H2 & H3 & H4).
      exists (String c pre), rest. rewrite H1, append_assoc_s.
      repeat split; auto.
      * cbn [String.append]. now rewrite H2.
      * cbn [contains]. rewrite H3, orb_false_r.
        destruct (String.prefix sep (String c pre)) eqn:Hq; [|reflexivity].
        apply (prefix_app _ _ rest) in Hq. cbn [String.append] in Hq.
        rewrite <- H2 in Hq. congruence.
Qed.

(** the fields after the first separator are those of the text after it *)
Lemma after_first_separator (sep : string) :
  sep <> "" ->
  forall s cur,
    contains sep s = true ->
    exists pre post,
      s = (pre ++ sep ++ post)%string /\
      contains sep pre = false /\
      split_from sep 0 cur s = (cur ++ pre)%string :: split_from sep 0 "" post.
Proof.
  intros Hsep.
  assert (Hnil : contains sep "" = false)
    by (destruct sep; [congruence | reflexivity]).
  induction s as [|c s IH]; intros cur Hc.
  - rewrite Hnil in Hc. discriminate.
  - cbn [split_from]. destruct (String.prefix sep (String c s)) eqn:Hp.
    + destruct (prefix_split _ _ Hp) as [post Hpost].
      exists "", post. cbn [String.append]. repeat split; auto.
      destruct sep as [|a sep']; [congruence|].
      cbn [String.append] in Hpost. injection Hpost as -> ->.
      change (String.length (String a sep') - 1)
        with (String.length sep' - 0).
      rewrite Nat.sub_0_r, split_from_skip.
      f_equal. clear. induction cur; cbn; congruence.
    + cbn [contains] in Hc. rewrite Hp in Hc. cbn [orb] in Hc.
      destruct (IH (cur ++ String c "")%string Hc) as (pre & post & H1 & H2 & H3).
      exists (String c pre), post. rewrite H3, append_assoc_s.
      repeat split; auto.
      * cbn [String.append]. now rewrite H1.
      * cbn [contains]. rewrite H2, orb_false_r.
        destruct (String.prefix sep (String c pre)) eqn:Hq; [|reflexivity].
        apply (prefix_app _ _ (sep ++ post)%string) in Hq.
        cbn [String.append] in Hq. rewrite <- H1 in Hq. congruence.
Qed.

(** where the identifier sits in a profile URL *)
Lemma user_id_position (profile_url : string) :
  contains "user=" profile_url = true ->
  exists before after,
    profile_url =
      (before ++ "user=" ++ user_id_of profile_url ++ after)%string /\
    contains "user=" before = false /\
    contains "&" (user_id_of profile_url) = false /\
    contains "user=" (user_id_of profile_url) = false /\
    (after = "" \/ String.prefix "&" after = true
     \/ String.prefix "user=" after = true).
Proof.
  intros H. unfold user_id_of, split.
  destruct (after_first_separator "user=" ltac:(discriminate) profile_url "" H)
    as (before & post & E & Hb & Es).
  rewrite Es. cbn [nth].
  destruct (first_field "user=" ltac:(discriminate) post "")
    as (field & rest & F1 & F2 & F3 & F4).
  replace (nth 0 (split_from "user=" 0 "" post) "")
    with (hd "" (split_from "user=" 0 "" post))
    by now destruct (split_from "user=" 0 "" post).
  rewrite F1. cbn [String.append].
  destruct (first_field "&" ltac:(discriminate) field "")
    as (id & rest' & G1 & G2 & G3 & G4).
  rewrite G1. cbn [String.append].
  exists before, (rest' ++ rest)%string. repeat split.
  - rewrite E, F2, G2. now rewrite !append_assoc_s.
  - exact Hb.
  - exact G3.
  - destruct (contains "user=" id) eqn:Hid; [|reflexivity].
    apply (contains_app _ _ rest') in Hid. rewrite <- G2 in Hid. congruence.
  - destruct G4 as [-> | G4].
    + cbn [String.append]. destruct F4 as [-> | F4]; auto.
    + right. left. now apply prefix_app.
Qed.

(** ** Requests and delays of a fetch *)

Lemma sleeps_app (t1 t2 : list event) :
  sleeps (t1 ++ t2) = sleeps t1 + sleeps t2.
Proof.
  unfold sleeps. now rewrite filter_app, length_app.
Qed.

Lemma sleeps_cons (e : event) (t : list event) :
  sleeps (e :: t) = (if is_sleep e then 1 else 0) + sleeps t.
Proof.
  unfold sleeps. cbn [filter]. now destruct (is_sleep e).
Qed.

Lemma sleeps_nil : sleeps [] = 0.
Proof. reflexivity. Qed.

(** counts the requests and the delays of explicit effects *)
Ltac count_events :=
  rewrite ?calls_app, ?sleeps_app, ?calls_cons, ?sleeps_cons, ?calls_nil,
    ?sleeps_nil;
  cbn [is_call is_sleep]; try lia.

(** the loop of attempts: what it appends to the trace *)
Lemma attempts_shape (profile_url : string) (p : request) (n : nat) :
  forall k w, exists r l,
    attempts profile_url p k n w = (Ok r, emits l w) /\
    (forall q, In (Call q) l -> q = p) /\
    match r with
    | Some _ => 1 <= calls l /\ calls l <= n /\ sleeps l + 1 = calls l
    | None => calls l = n /\ sleeps l = n
    end.
Proof.
  induction n as [|n IH]; intros k w.
  - exists None, [Print (FailedToFetch profile_url)].
    repeat split. intros q [E|[]]. discriminate.
  - rewrite attempts_S, guarded_attempt_run.
    destruct (attempt_value (serpapi w (trace w) p)) as [[|d]|e] eqn:Ev.
    + destruct (IH (S k)
                  (emits [Call p; Print (retry_line (k + 1) profile_url (Ok Continue));
                          Sleep] w)) as (r & l & E & Hq & Hn).
      rewrite E, emits_emits. eexists r, _. split; [reflexivity|]. split.
      * intros q [Eq|[Eq|[Eq|Hin]]]; try discriminate; [congruence | auto].
      * destruct r; count_events.
    + exists (Some d), [Call p; Print (fetched_line d)]. split; [reflexivity|].
      split; [|count_events].
      intros q [Eq|[Eq|[]]]; [congruence | discriminate].
    + destruct (IH (S k)
                  (emits [Call p; Print (retry_line (k + 1) profile_url (Raise e));
                          Sleep] w)) as (r & l & E & Hq & Hn).
      rewrite E, emits_emits. eexists r, _. split; [reflexivity|]. split.
      * intros q [Eq|[Eq|[Eq|Hin]]]; try discriminate; [congruence | auto].
      * destruct r; count_events.
Qed.

(** X2: whatever the URL, the number of attempts and the service, a fetch
    only extends the trace; its requests are all the same request, there
    are at most [retries] of them, and every attempt that does not return
    data is followed by one pacing delay: as many delays as requests when
    the result is None (and then, for a URL with the marker, all
    [retries] requests were sent), one fewer when data are returned. *)
Theorem X2_fetch_requests_and_delays
    (profile_url : string) (retries : nat) (w : world) :
  exists r l,
    fetch_scholar_data profile_url retries w = (Ok r, emits l w) /\
    (forall q, In (Call q) l -> q = params_for profile_url w) /\
    calls l <= retries /\
    match r with
    | Some _ => sleeps l + 1 = calls l
    | None =>
        sleeps l = calls l /\
        (contains "user=" profile_url = true -> calls l = retries)
    end.
Proof.
  destruct (contains "user=" profile_url) eqn:H.
  - rewrite (fetch_with_marker _ _ _ H).
    destruct (attempts_shape profile_url (params_for profile_url w) retries 0 w)
      as (r & l & E & Hq & Hn).
    exists r, l. split; [exact E|]. split; [exact Hq|].
    destruct r; [lia|]. split; [lia|]. split; [lia|]. intros _. lia.
  - rewrite (fetch_without_marker _ _ _ H).
    exists None, [Print (InvalidScholarURL profile_url)].
    split; [reflexivity|]. split.
    + intros q [E|[]]. discriminate.
    + count_events.
Qed.

(** X1: the request of a fetch names the identifier that follows the
    first "user=" of the profile URL and runs up to the next "&", the
    next "user=" or the end of the URL; it holds neither "&" nor
    "user=". *)
Theorem X1_request_carries_the_identifier
    (profile_url : string) (retries : nat) (w : world) :
  contains "user=" profile_url = true ->
  1 <= retries ->
  exists id before after rest,
    trace (snd (fetch_scholar_data profile_url retries w)) =
      trace w
      ++ Call (Request "google_scholar_author" id "en" (SERPAPI_KEY w)) :: rest /\
    profile_url = (before ++ "user=" ++ id ++ after)%string /\
    contains "user=" before = false /\
    contains "&" id = false /\
    contains "user=" id = false /\
    (after = "" \/ String.prefix "&" after = true
     \/ String.prefix "user=" after = true).
Proof.
  intros H Hr.
  destruct (user_id_position profile_url H)
    as (before & after & E & Hb & Ha & Hu & Hafter).
  rewrite (fetch_with_marker _ _ _ H).
  destruct retries as [|n]; [lia|].
  rewrite attempts_S, guarded_attempt_run.
  set (p := params_for profile_url w).
  exists (user_id_of profile_url), before, after.
  destruct (attempt_value (serpapi w (trace w) p)) as [[|d]|e].
  - destruct (attempts_shape profile_url p n 1
                (emits [Call p; Print (retry_line (0 + 1) profile_url (Ok Continue));
                        Sleep] w)) as (r & l & El & _).
    rewrite El. cbn [snd]. rewrite emits_emits, trace_emits. cbn [app].
    eexists. repeat split; eauto.
  - cbn [snd]. rewrite trace_emits. eexists. repeat split; eauto.
  - destruct (attempts_shape profile_url p n 1
                (emits [Call p; Print (retry_line (0 + 1) profile_url (Raise e));
                        Sleep] w)) as (r & l & El & _).
    rewrite El. cbn [snd]. rewrite emits_emits, trace_emits. cbn [app].
    eexists. repeat split; eauto.
Qed.

Lemma py_eq_str_true (v : pyval) (s : string) :
  py_eq_str v s = true -> v = PStr s.
Proof.
  destruct v; cbn [py_eq_str]; try discriminate.
  intros H. apply String.eqb_eq in H. now subst.
Qed.

Lemma py_int_or_zero (z : Z) : py_int (py_or (PInt z) (PInt 0)) = Ok z.
Proof.
  unfold py_or. cbn [truthy]. destruct (Z.eqb_spec z 0) as [->|]; reflexivity.
Qed.

(** X3: an attempt is empty only when the name is the placeholder and
    citations and h-index are both 0.  When the first answer has integer
    metrics and a name other than "Unknown", or a citation count or
    h-index other than 0, the fetch returns its record at once, with one
    request and no delay; so a resolved profile whose metrics are all 0
    is returned, not retried. *)
Theorem X3_resolved_answer_is_returned_at_once
    (profile_url : string) (retries : nat) (w : world)
    (results : pyval) (r : raw_metrics) (c h i : Z) :
  let p := params_for profile_url w in
  contains "user=" profile_url = true ->
  1 <= retries ->
  serpapi w (trace w) p = Ok results ->
  normalize results = Ok r ->
  citations_all r = PInt c ->
  h_index_all r = PInt h ->
  i10_index_all r = PInt i ->
  name r <> PStr "Unknown" \/ c <> 0%Z \/ h <> 0%Z ->
  fetch_scholar_data profile_url retries w =
  (Ok (Some (ScholarData (name r) c h i)),
   emits [Call p; Print (Fetched (name r) c h i)] w).
Proof.
  intros p H Hr Hapi Hnorm Hc Hh Hi Hne.
  rewrite (fetch_with_marker _ _ _ H). fold p.
  destruct retries as [|n]; [lia|].
  rewrite attempts_S, guarded_attempt_run, Hapi.
  unfold attempt_value. cbn [bindR]. rewrite Hnorm. cbn [bindR].
  assert (Hempty : looks_empty r = false).
  { unfold looks_empty. rewrite Hc, Hh. cbn [py_eq_int].
    destruct (py_eq_str (name r) "Unknown") eqn:En; [|reflexivity].
    apply py_eq_str_true in En.
    destruct (Z.eqb_spec c 0), (Z.eqb_spec h 0); try reflexivity.
    destruct Hne as [Hn|[Hn|Hn]]; congruence. }
  rewrite Hempty, Hc, Hh, Hi, !py_int_or_zero. reflexivity.
Qed.

(** X4: with the default two attempts, when the first attempt yields no
    data (it raised or looked empty) and the second answer is good, the
    fetch returns the record of the second answer: two requests, one
    pacing delay between them. *)
Theorem X4_second_attempt_recovers
    (profile_url : string) (w : world)
    (v1 : result (loop_ctl scholar_data)) (d : scholar_data) :
  let p := params_for profile_url w in
  contains "user=" profile_url = true ->
  v1 = attempt_value (serpapi w (trace w) p) ->
  no_data v1 ->
  attempt_value
    (serpapi w (trace w ++ [Call p; Print (retry_line 1 profile_url v1); Sleep])
       p) = Ok (Return d) ->
  fetch_scholar_data profile_url retries_default w =
  (Ok (Some d),
   emits [Call p; Print (retry_line 1 profile_url v1); Sleep;
          Call p; Print (fetched_line d)] w).
Proof.
  intros p H E1 N1 E2.
  rewrite (fetch_two_attempts _ _ H). fold p. rewrite <- E1, E2.
  destruct v1 as [[|d1]|e1]; try reflexivity. now elim (N1 d1).
Qed.

(** ** Metrics are read by position *)

Lemma normalize_metrics (results : pyval) (r : raw_metrics) :
  normalize results = Ok r ->
  Metric (groups_of results) 0 "citations" (citations_all r) /\
  Metric (groups_of results) 1 "h_index" (h_index_all r) /\
  Metric (groups_of results) 2 "i10_index" (i10_index_all r).
Proof.
  unfold normalize, groups_of.
  destruct (py_get results "author" (PDict [])) as [author|]; [|discriminate].
  cbn [bindR].
  destruct (py_get results "cited_by" (PDict [])) as [cited_by|]; [|discriminate].
  cbn [bindR].
  destruct (py_get cited_by "table" (PList [])) as [table|]; [|discriminate].
  cbn [bindR].
  destruct (metric_group table 0 "citations") as [c|] eqn:Ec; [|discriminate].
  destruct (metric_group table 1 "h_index") as [h|] eqn:Eh; [|discriminate].
  destruct (metric_group table 2 "i10_index") as [i|] eqn:Ei; [|discriminate].
  cbn [bindR].
  destruct (py_get author "name" (PStr "Unknown")) as [n|]; [|discriminate].
  cbn [bindR]. intros E; injection E as <-.
  cbn [citations_all h_index_all i10_index_all].
  auto using metric_group_selects.
Qed.

Lemma selects_nothing (v : pyval) : Selects [] v -> v = PInt 0.
Proof.
  intros H. inversion H; subst; try discriminate; reflexivity.
Qed.

Lemma metric_without_key (groups : list pyval) (k : nat) (key : string)
    (v : pyval) (items : list (string * pyval)) :
  Metric groups k key v ->
  nth_error groups k = Some (PDict items) ->
  lookup key items = None ->
  v = PInt 0.
Proof.
  unfold Metric. intros H E L. rewrite E in H. cbn [windows_of] in H.
  rewrite L in H. now apply selects_nothing.
Qed.

(** X5: the three metrics are read by position and key: citations from
    the first group of the table under "citations", the h-index from the
    second under "h_index", the i10-index from the third under
    "i10_index".  A group that has no entry under the key of its
    position gives 0, whatever the other groups hold. *)
Theorem X5_group_without_its_key_gives_zero
    (results : pyval) (r : raw_metrics) :
  normalize results = Ok r ->
  (forall items,
      nth_error (groups_of results) 0 = Some (PDict items) ->
      lookup "citations" items = None -> citations_all r = PInt 0) /\
  (forall items,
      nth_error (groups_of results) 1 = Some (PDict items) ->
      lookup "h_index" items = None -> h_index_all r = PInt 0) /\
  (forall items,
      nth_error (groups_of results) 2 = Some (PDict items) ->
      lookup "i10_index" items = None -> i10_index_all r = PInt 0).
Proof.
  intros H. destruct (normalize_metrics _ _ H) as (Hc & Hh & Hi).
  repeat split; intros items E L; eapply metric_without_key; eauto.
Qed.

(** ** The bulk sync on any table *)

Lemma fetch_shape (profile_url : string) (retries : nat) (w : world) :
  exists r l,
    fetch_scholar_data profile_url retries w = (Ok r, emits l w) /\
    calls l <= retries.
Proof.
  destruct (contains "user=" profile_url) eqn:H.
  - rewrite (fetch_with_marker _ _ _ H).
    destruct (attempts_shape profile_url (params_for profile_url w) retries 0 w)
      as (r & l & E & _ & Hn).
    exists r, l. split; [exact E|]. destruct r; lia.
  - rewrite (fetch_without_marker _ _ _ H). do 2 eexists.
    split; [reflexivity|]. count_events.
Qed.

Lemma metrics_only_refl (df : DataFrame) : Forall2 metrics_only df df.
Proof.
  induction df; constructor; [now left | assumption].
Qed.

Lemma at_set_metrics_only (data : scholar_data) (df0 df1 : DataFrame) :
  Forall2 metrics_only df0 df1 ->
  forall idx, Forall2 metrics_only df0 (at_set idx (with_metrics data) df1).
Proof.
  induction 1 as [|r r' df0 df1 Hr Hrest IH]; intros idx.
  - destruct idx; constructor.
  - destruct idx as [|idx]; cbn [at_set]; constructor; auto.
    right. exists data. destruct Hr as [->|[d ->]]; reflexivity.
Qed.

Lemma usable_false (r : row) :
  usable r = false ->
  String.eqb (url_of r) "" || negb (startswith (url_of r) "http") = true.
Proof.
  unfold usable. now destruct (_ || _).
Qed.

Lemma usable_true (r : row) :
  usable r = true -> startswith (url_of r) "http" = true.
Proof.
  unfold usable. destruct (String.eqb (url_of r) ""); [discriminate|].
  now destruct (startswith (url_of r) "http").
Qed.

Lemma combine_seq_snd {A : Type} (l : list A) :
  forall k, map snd (combine (seq k (List.length l)) l) = l.
Proof.
  induction l as [|x l IH]; intros k; cbn [List.length seq combine map];
    [reflexivity|].
  now rewrite IH.
Qed.

Lemma iterrows_snd (df : DataFrame) : map snd (iterrows df) = df.
Proof. apply combine_seq_snd. Qed.

(** the loop over the rows: its counts, its requests and delays, and what
    it does to the table *)
Lemma update_rows_spec (rows : list (nat * row)) :
  forall st w, exists st' l fl,
    update_rows rows st w = (Ok st', emits l w) /\
    failed_list st' = failed_list st ++ fl /\
    incl fl (map name_of (map snd rows)) /\
    updated_count st' + List.length fl =
      updated_count st + List.length rows /\
    calls l <= 2 * List.length (filter usable (map snd rows)) /\
    List.length (filter usable (map snd rows)) <= sleeps l /\
    (forall df0,
        Forall2 metrics_only df0 (sync_df st) ->
        Forall2 metrics_only df0 (sync_df st')).
Proof.
  induction rows as [|[idx r] rows IH]; intros st w.
  - exists st, [], []. cbn [update_rows]. unfold ret.
    rewrite emits_nil, app_nil_r. cbn. repeat split; auto. apply incl_nil_l.
  - cbn [map snd filter List.length]. destruct (usable r) eqn:Hu.
    + rewrite (update_rows_fetch _ _ _ _ _ (usable_true _ Hu)).
      destruct (fetch_shape (url_of r) retries_default
                  (emit (Print (Updating (name_of r))) w))
        as (d & lf & Ef & Hcalls).
      rewrite Ef. unfold retries_default in Hcalls.
      destruct d as [data|].
      * match goal with
        | |- context [update_rows rows ?st1 ?w1] =>
            destruct (IH st1 w1) as (st' & l & fl & E & Hfl & Hin & Hcnt & Hc & Hs & Hdf)
        end.
        cbn [sync_df updated_count failed_list] in *.
        rewrite E. unfold emit. rewrite !emits_emits.
        eexists st', _, fl. split; [reflexivity|].
        repeat split; auto.
        -- now apply incl_tl.
        -- lia.
        -- cbn [List.length]. count_events.
        -- cbn [List.length]. count_events.
        -- intros df0 H0. apply Hdf. now apply at_set_metrics_only.
      * match goal with
        | |- context [update_rows rows ?st1 ?w1] =>
            destruct (IH st1 w1) as (st' & l & fl & E & Hfl & Hin & Hcnt & Hc & Hs & Hdf)
        end.
        cbn [sync_df updated_count failed_list] in *.
        rewrite E. unfold emit. rewrite !emits_emits.
        eexists st', _, (name_of r :: fl). split; [reflexivity|].
        repeat split; auto.
        -- rewrite Hfl, <- app_assoc. reflexivity.
        -- apply incl_cons; [now left | now apply incl_tl].
        -- cbn [List.length]. lia.
        -- cbn [List.length]. count_events.
        -- cbn [List.length]. count_events.
    + rewrite (update_rows_skip _ _ _ _ _ (usable_false _ Hu)).
      match goal with
      | |- context [update_rows rows ?st1 ?w1] =>
          destruct (IH st1 w1) as (st' & l & fl & E & Hfl & Hin & Hcnt & Hc & Hs & Hdf)
      end.
      cbn [sync_df updated_count failed_list] in *.
      rewrite E. exists st', l, (name_of r :: fl). split; [reflexivity|].
      repeat split; auto.
      * rewrite Hfl, <- app_assoc. reflexivity.
      * apply incl_cons; [now left | now apply incl_tl].
      * cbn [List.length]. lia.
Qed.

(** the bulk sync on a table that loads *)
Lemma update_excel_run (w : world) (df : DataFrame) :
  files w DATA_PATH = Some (Sheet df) ->
  exists df' u l fl,
    incl fl (map name_of df) /\
    u + List.length fl = List.length df /\
    calls l <= 2 * List.length (filter usable df) /\
    List.length (filter usable df) <= sleeps l /\
    Forall2 metrics_only df df' /\
    update_excel w =
    match write_fault w UPDATED_PATH with
    | None =>
        (Ok (result_all u (List.length df) fl true),
         emits [ToExcel UPDATED_PATH] (write UPDATED_PATH df' (emits l w)))
    | Some e =>
        if isinstance e PermissionError
        then
          (Ok (result_all u (List.length df) fl
                 match files w UPDATED_PATH with
                 | Some _ => true
                 | None => false
                 end),
           emits (l ++ [Print (CouldNotSave UPDATED_PATH)]) w)
        else (Raise e, emits l w)
    end.
Proof.
  intros Hfile.
  destruct (update_rows_spec (iterrows df) (SyncState df 0 []) w)
    as (st & l & fl & E & Hfl & Hin & Hcnt & Hc & Hs & Hdf).
  rewrite iterrows_snd in *. cbn [sync_df updated_count failed_list] in *.
  exists (sync_df st), (updated_count st), l, fl.
  assert (Hlen : List.length (iterrows df) = List.length df).
  { unfold iterrows. rewrite length_combine, length_seq. lia. }
  repeat split; auto.
  - lia.
  - apply Hdf, metrics_only_refl.
  - unfold update_excel. unfold bind at 1.
    rewrite (load_or_page_sheet _ _ _ Hfile).
    unfold bind at 1. rewrite E.
    unfold bind, os_path_exists, ret. rewrite save_or_skip_run.
    cbn [write_fault emits]. rewrite Hfl. cbn [app].
    destruct (write_fault w UPDATED_PATH) as [e|]; [|reflexivity].
    destruct (isinstance e PermissionError); [|reflexivity].
    unfold emit. now rewrite emits_emits.
Qed.

(** X6: on every table that loads and for every behaviour of the
    service, the bulk sync counts each row once, as updated or as failed:
    total is the number of rows, updated plus the length of the failed
    list is total, and every failed name is the name of a row.  (The
    snapshot write goes through or fails with a [PermissionError].) *)
Theorem X6_bulk_sync_counts_every_row (w : world) (df : DataFrame) :
  files w DATA_PATH = Some (Sheet df) ->
  (forall e, write_fault w UPDATED_PATH = Some e ->
             isinstance e PermissionError = true) ->
  exists u fl ready,
    fst (update_excel w) = Ok (result_all u (List.length df) fl ready) /\
    u + List.length fl = List.length df /\
    incl fl (map name_of df).
Proof.
  intros Hfile Hfault.
  destruct (update_excel_run w df Hfile)
    as (df' & u & l & fl & Hin & Hcnt & _ & _ & _ & E).
  rewrite E. destruct (write_fault w UPDATED_PATH) as [e|].
  - rewrite (Hfault e eq_refl). now eexists u, fl, _.
  - now exists u, fl, true.
Qed.

(** X7: the bulk sync never changes the primary file, in any world:
    whether the table loads or not, whether the snapshot write goes
    through, is skipped or raises. *)
Theorem X7_bulk_sync_keeps_the_primary_file (w : world) :
  files (snd (update_excel w)) DATA_PATH = files w DATA_PATH.
Proof.
  destruct (files w DATA_PATH) as [[x|df]|] eqn:Hfile.
  - unfold update_excel, bind. rewrite load_or_page_run, Hfile.
    cbn [snd ret]. exact Hfile.
  - destruct (update_excel_run w df Hfile) as (df' & u & l & fl & _ & _ & _ & _ & _ & E).
    rewrite E. destruct (write_fault w UPDATED_PATH) as [e|].
    + destruct (isinstance e PermissionError); exact Hfile.
    + exact Hfile.
  - unfold update_excel, bind. rewrite load_or_page_run, Hfile.
    cbn [snd ret]. exact Hfile.
Qed.

Lemma at_set_app (f : row -> row) (r : row) (suffix : list row) :
  forall pre,
    at_set (List.length pre) f (pre ++ r :: suffix) = pre ++ f r :: suffix.
Proof.
  induction pre as [|x pre IH]; cbn [List.length app at_set]; [reflexivity|].
  now rewrite IH.
Qed.

(** the loop of the bulk sync, row by row: the rows already passed are
    [pre], the rows still to come are [suffix], numbered from [k] *)
Lemma update_rows_synced (suffix : list row) :
  forall k pre st w,
    sync_df st = pre ++ suffix ->
    List.length pre = k ->
    exists st' suffix' w',
      update_rows (combine (seq k (List.length suffix)) suffix) st w =
        (Ok st', w') /\
      sync_df st' = pre ++ suffix' /\
      synced w suffix suffix' w'.
Proof.
  induction suffix as [|r rest IH]; intros k pre st w Hdf Hk.
  - exists st, [], w. repeat split; [exact Hdf | constructor].
  - cbn [List.length seq combine]. destruct (usable r) eqn:Hu.
    + rewrite (update_rows_fetch _ _ _ _ _ (usable_true _ Hu)).
      destruct (fetch_returns (url_of r) retries_default
                  (emit (Print (Updating (name_of r))) w)) as (d & l & Ef).
      rewrite Ef. destruct d as [data|].
      * destruct (IH (S k) (pre ++ [with_metrics data r])
                    (SyncState (at_set k (with_metrics data) (sync_df st))
                       (updated_count st + 1) (failed_list st))
                    (emit Sleep
                       (emits l (emit (Print (Updating (name_of r))) w))))
          as (st' & suffix' & w' & E & Hdf' & Hs).
        { cbn [sync_df]. rewrite Hdf, <- Hk, at_set_app, <- app_assoc.
          reflexivity. }
        { rewrite length_app. cbn [List.length]. lia. }
        exists st', (with_metrics data r :: suffix'), w'.
        split; [exact E|]. split.
        -- rewrite Hdf', <- app_assoc. reflexivity.
        -- now apply (synced_updated w r data
                        (emits l (emit (Print (Updating (name_of r))) w))).
      * destruct (IH (S k) (pre ++ [r])
                    (SyncState (sync_df st) (updated_count st)
                       (failed_list st ++ [name_of r]))
                    (emit Sleep
                       (emits l (emit (Print (Updating (name_of r))) w))))
          as (st' & suffix' & w' & E & Hdf' & Hs).
        { cbn [sync_df]. rewrite Hdf, <- app_assoc. reflexivity. }
        { rewrite length_app. cbn [List.length]. lia. }
        exists st', (r :: suffix'), w'.
        split; [exact E|]. split.
        -- rewrite Hdf', <- app_assoc. reflexivity.
        -- now apply (synced_failed w r
                        (emits l (emit (Print (Updating (name_of r))) w))).
    + rewrite (update_rows_skip _ _ _ _ _ (usable_false _ Hu)).
      destruct (IH (S k) (pre ++ [r])
                  (SyncState (sync_df st) (updated_count st)
                     (failed_list st ++ [name_of r])) w)
        as (st' & suffix' & w' & E & Hdf' & Hs).
      { cbn [sync_df]. rewrite Hdf, <- app_assoc. reflexivity. }
      { rewrite length_app. cbn [List.length]. lia. }
      exists st', (r :: suffix'), w'.
      split; [exact E|]. split.
      * rewrite Hdf', <- app_assoc. reflexivity.
      * now apply synced_skipped.
Qed.

(** from a world, a table is synced in one way only *)
Lemma synced_functional (w : world) (rows a : list row) (wa : world) :
  synced w rows a wa ->
  forall b wb, synced w rows b wb -> a = b /\ wa = wb.
Proof.
  induction 1 as [w | w r rows a wa Hu Hs IH | w r data w1 rows a wa Hu Hf Hs IH
                  | w r w1 rows a wa Hu Hf Hs IH];
    intros b wb Hb; inversion Hb; subst; try congruence;
    try match goal with
        | H2 : fetch_scholar_data _ _ _ = _ |- _ =>
            rewrite Hf in H2; inversion H2; subst; clear H2
        end;
    try match goal with
        | Hx : synced _ rows _ _ |- _ => destruct (IH _ _ Hx) as [-> ->]
        end;
    now split.
Qed.

(** the bulk sync whose snapshot write goes through: what it saves *)
Lemma update_excel_synced (w : world) (df : DataFrame) :
  files w DATA_PATH = Some (Sheet df) ->
  write_fault w UPDATED_PATH = None ->
  exists df' w',
    synced w df df' w' /\
    Forall2 metrics_only df df' /\
    snd (update_excel w) =
      emits [ToExcel UPDATED_PATH] (write UPDATED_PATH df' w').
Proof.
  intros Hfile Hwrite.
  destruct (update_rows_spec (iterrows df) (SyncState df 0 []) w)
    as (st & l & fl & E & _ & _ & _ & _ & _ & Hdf).
  destruct (update_rows_synced df 0 [] (SyncState df 0 []) w eq_refl eq_refl)
    as (st' & df' & w' & E' & Hdf' & Hs).
  fold (iterrows df) in E'. rewrite E in E'. injection E' as <- <-.
  cbn [app] in Hdf'.
  exists df', (emits l w). split; [exact Hs|]. split.
  - rewrite <- Hdf'. apply Hdf, metrics_only_refl.
  - unfold update_excel. unfold bind at 1.
    rewrite (load_or_page_sheet _ _ _ Hfile).
    unfold bind at 1. rewrite E.
    unfold bind, os_path_exists, ret. rewrite save_or_skip_run.
    cbn [write_fault emits]. rewrite Hwrite, Hdf'. reflexivity.
Qed.

(** X8: the snapshot the bulk sync writes has the rows of the loaded
    table, in the same order; each row is as it was or differs in its
    three metric columns only, which then hold fetched values: serial
    numbers, names and URLs are never changed, and a row whose fetch
    failed keeps its previous metrics.  Row by row ([synced]): a row
    without a usable URL is kept; a row whose fetch in this run returned
    data has exactly these data in its metric columns; a row whose fetch
    returned None is kept.  The saved table is the only table that
    arises in this way. *)
Theorem X8_snapshot_changes_metrics_only (w : world) (df : DataFrame) :
  files w DATA_PATH = Some (Sheet df) ->
  write_fault w UPDATED_PATH = None ->
  exists df',
    files (snd (update_excel w)) UPDATED_PATH = Some (Sheet df') /\
    Forall2 metrics_only df df' /\
    (exists w',
        synced w df df' w' /\
        snd (update_excel w) =
          emits [ToExcel UPDATED_PATH] (write UPDATED_PATH df' w')) /\
    (forall other w2, synced w df other w2 -> other = df').
Proof.
  intros Hfile Hwrite.
  destruct (update_excel_synced w df Hfile Hwrite) as (df' & w' & Hs & Hdf & E).
  exists df'. rewrite E. split; [reflexivity|]. split; [exact Hdf|].
  split; [now exists w'|].
  intros other w2 H2. now destruct (synced_functional _ _ _ _ H2 _ _ Hs).
Qed.

(** X9: a bulk sync sends at most two requests for each row whose URL is
    not empty and starts with "http", none for the other rows, and waits
    at least one pacing delay for each row it fetches. *)
Theorem X9_bulk_sync_requests_and_delays (w : world) (df : DataFrame) :
  files w DATA_PATH = Some (Sheet df) ->
  let w' := snd (update_excel w) in
  calls (trace w') <= calls (trace w) + 2 * List.length (filter usable df) /\
  sleeps (trace w) + List.length (filter usable df) <= sleeps (trace w').
Proof.
  intros Hfile.
  destruct (update_excel_run w df Hfile)
    as (df' & u & l & fl & _ & _ & Hc & Hs & _ & E).
  cbv zeta. rewrite E. destruct (write_fault w UPDATED_PATH) as [e|].
  - destruct (isinstance e PermissionError); cbn [snd];
      rewrite trace_emits; count_events.
  - cbn [snd trace emits write]. count_events.
Qed.

Lemma update_rows_all_skipped (rows : list (nat * row)) :
  (forall ir, In ir rows -> usable (snd ir) = false) ->
  forall st w,
    update_rows rows st w =
    (Ok (SyncState (sync_df st) (updated_count st)
           (failed_list st ++ map name_of (map snd rows))), w).
Proof.
  induction rows as [|[idx r] rows IH]; intros Hall st w.
  - cbn [update_rows map]. rewrite app_nil_r. now destruct st.
  - rewrite (update_rows_skip _ _ _ _ _ (usable_false r (Hall (idx, r) (or_introl eq_refl)))).
    rewrite IH by (intros ir Hin; apply Hall; now right).
    cbn [sync_df updated_count failed_list map snd].
    now rewrite <- app_assoc.
Qed.

(** X10: when no row has a usable URL (each is empty, blank, or does not
    start with "http"), and in particular on an empty table, the bulk
    sync sends no request and waits for nothing: it reports 0 updated
    and every name as failed, in table order, and the snapshot is a copy
    of the table. *)
Theorem X10_no_usable_url_no_request (w : world) (df : DataFrame) :
  files w DATA_PATH = Some (Sheet df) ->
  (forall r, In r df -> usable r = false) ->
  write_fault w UPDATED_PATH = None ->
  update_excel w =
  (Ok (result_all 0 (List.length df) (map name_of df) true),
   emits [ToExcel UPDATED_PATH] (write UPDATED_PATH df w)).
Proof.
  intros Hfile Hall Hwrite.
  unfold update_excel. unfold bind at 1.
  rewrite (load_or_page_sheet _ _ _ Hfile).
  unfold bind at 1. rewrite update_rows_all_skipped.
  - rewrite iterrows_snd. unfold bind, os_path_exists, ret.
    rewrite save_or_skip_run, Hwrite. reflexivity.
  - intros [idx r] Hin. apply Hall. rewrite <- (iterrows_snd df).
    apply in_map_iff. now exists (idx, r).
Qed.

(** ** Requests that change nothing *)

(** X11: when the primary file is missing or cannot be read, none of the
    four operations sends a request, waits or writes: each returns an
    error page and leaves the world as it was. *)
Theorem X11_without_the_table_nothing_happens (op : operation) (w : world) :
  (forall df, files w DATA_PATH <> Some (Sheet df)) ->
  exists page, run op w = (Ok page, w) /\ error_page page.
Proof.
  intros Hfile.
  assert (Hload : forall page,
    exists msg, load_or_page page w = (Ok (inl (page msg)), w)).
  { intros page. rewrite load_or_page_run.
    destruct (files w DATA_PATH) as [[e|df]|] eqn:E; eauto.
    now elim (Hfile df). }
  destruct op as [f|f|f|]; cbn [run].
  - unfold fetch_one.
    destruct (String.eqb _ ""); [eexists; split; [reflexivity|]; eexists; eauto|].
    destruct (Hload result_one_error) as [msg E]. unfold bind. rewrite E.
    eexists; split; [reflexivity|]; eexists; eauto.
  - unfold add_faculty.
    destruct (negb _); [eexists; split; [reflexivity|]; eexists; eauto|].
    destruct (_ || _); [eexists; split; [reflexivity|]; eexists; eauto|].
    destruct (_ || _); [eexists; split; [reflexivity|]; eexists; eauto|].
    destruct (Hload result_one_error) as [msg E]. unfold bind. rewrite E.
    eexists; split; [reflexivity|]; eexists; eauto.
  - unfold delete_faculty.
    destruct (negb _); [eexists; split; [reflexivity|]; eexists; eauto|].
    destruct (String.eqb _ ""); [eexists; split; [reflexivity|]; eexists; eauto|].
    destruct (Hload result_one_error) as [msg E]. unfold bind. rewrite E.
    eexists; split; [reflexivity|]; eexists; eauto.
  - unfold update_excel.
    destruct (Hload result_all_error) as [msg E]. unfold bind. rewrite E.
    eexists; split; [reflexivity|]; eexists; eauto.
Qed.

(** ** [add_faculty] *)

Lemma add_faculty_run (f : form) (w : world) (df : DataFrame) :
  let faculty_name := strip (form_get f "new_name" "") in
  let faculty_url := strip (form_get f "new_url" "") in
  form_get f "admin_password" "" = ADMIN_PASSWORD ->
  faculty_name <> "" ->
  faculty_url <> "" ->
  contains "scholar.google" faculty_url = true ->
  contains "user=" faculty_url = true ->
  files w DATA_PATH = Some (Sheet df) ->
  let new_row :=
    Row (Some (Z.of_nat (List.length df + 1))) (Text faculty_name)
        (Text faculty_url) None None None in
  let done :=
    result_one_message ("Faculty '" ++ faculty_name ++ "' added successfully.") in
  add_faculty f w =
  match write_fault w DATA_PATH with
  | None =>
      (Ok done, emits [ToExcel DATA_PATH] (write DATA_PATH (df ++ [new_row]) w))
  | Some e =>
      if isinstance e PermissionError
      then (Ok done, emits [Print (CouldNotSave DATA_PATH)] w)
      else (Raise e, w)
  end.
Proof.
  intros faculty_name faculty_url Hpw Hname Hurl Hs Hu Hfile new_row done.
  unfold add_faculty. rewrite Hpw, String.eqb_refl. cbn [negb].
  fold faculty_name faculty_url.
  apply String.eqb_neq in Hname, Hurl. rewrite Hname, Hurl, Hs, Hu.
  cbn [negb orb].
  unfold bind at 1. rewrite (load_or_page_sheet _ _ _ Hfile).
  unfold bind, ret. rewrite save_or_skip_run.
  destruct (write_fault w DATA_PATH) as [e|]; [|reflexivity].
  now destruct (isinstance e PermissionError).
Qed.

Lemma dense_snoc (df : DataFrame) (r : row) :
  dense df ->
  Sr_No r = Some (Z.of_nat (List.length df + 1)) ->
  dense (df ++ [r]).
Proof.
  unfold dense. intros Hd Hr.
  rewrite map_app, length_app, Hd. cbn [List.length map].
  rewrite Nat.add_1_r, seq_S, map_app. cbn [map].
  rewrite Hr. do 3 f_equal. lia.
Qed.

(** X12: an add that passes the checks (admin password, name and URL not
    empty, URL with "scholar.google" and "user=") appends one row to the
    table and saves it: the new row has the serial number count + 1, the
    stripped name and URL and no metrics; the rows before it are as they
    were, and a table numbered 1..N stays numbered 1..N+1. *)
Theorem X12_add_appends_one_row (f : form) (w : world) (df : DataFrame) :
  let faculty_name := strip (form_get f "new_name" "") in
  let faculty_url := strip (form_get f "new_url" "") in
  form_get f "admin_password" "" = ADMIN_PASSWORD ->
  faculty_name <> "" ->
  faculty_url <> "" ->
  contains "scholar.google" faculty_url = true ->
  contains "user=" faculty_url = true ->
  files w DATA_PATH = Some (Sheet df) ->
  write_fault w DATA_PATH = None ->
  let saved :=
    df ++ [Row (Some (Z.of_nat (List.length df + 1))) (Text faculty_name)
               (Text faculty_url) None None None] in
  fst (add_faculty f w) =
    Ok (result_one_message
          ("Faculty '" ++ faculty_name ++ "' added successfully.")) /\
  files (snd (add_faculty f w)) DATA_PATH = Some (Sheet saved) /\
  (dense df -> dense saved).
Proof.
  intros faculty_name faculty_url Hpw Hname Hurl Hs Hu Hfile Hwrite saved.
  rewrite (add_faculty_run f w df Hpw Hname Hurl Hs Hu Hfile), Hwrite.
  repeat split. intros Hd. now apply dense_snoc.
Qed.


(** ** More on [delete_faculty] *)

Lemma filter_all {A : Type} (f : A -> bool) (l : list A) :
  (forall x, In x l -> f x = true) -> filter f l = l.
Proof.
  induction l as [|x l IH]; intros H; cbn [filter]; [reflexivity|].
  rewrite (H x (or_introl eq_refl)), IH; [reflexivity|].
  intros y Hy. apply H. now right.
Qed.

(** X14: a delete with a wrong admin password or an empty name, or for a
    name that no row bears (without regard to case), is refused with an
    error page and changes nothing: no file is written. *)
Theorem X14_delete_refused_changes_nothing (f : form) (w : world) :
  let faculty_name := strip (form_get f "delete_name" "") in
  form_get f "admin_password_del" "" <> ADMIN_PASSWORD \/
  faculty_name = "" \/
  (exists df,
      files w DATA_PATH = Some (Sheet df) /\
      forall r, In r df -> matches_name faculty_name r = false) ->
  exists msg, delete_faculty f w = (Ok (result_one_error msg), w).
Proof.
  intros faculty_name H.
  destruct (String.eqb_spec (form_get f "admin_password_del" "") ADMIN_PASSWORD)
    as [Hpw|Hpw].
  2:{ unfold delete_faculty.
      destruct (String.eqb_spec (form_get f "admin_password_del" "")
                  ADMIN_PASSWORD); [contradiction|].
      eexists; reflexivity. }
  destruct (String.eqb_spec faculty_name "") as [Hn|Hn].
  { unfold delete_faculty. rewrite Hpw, String.eqb_refl. cbn [negb].
    fold faculty_name. rewrite Hn. eexists; reflexivity. }
  destruct H as [H|[H|(df & Hfile & Hno)]]; try contradiction.
  rewrite (delete_faculty_run f w df Hpw Hn Hfile). fold faculty_name.
  rewrite filter_all, Nat.eqb_refl; [eexists; reflexivity|].
  intros r Hr. now rewrite (Hno r Hr).
Qed.

Lemma renumber_from_dense (df : DataFrame) :
  forall start,
    map Sr_No df = map (fun n => Some (Z.of_nat n)) (seq start (List.length df)) ->
    map (fun nr => set_Sr_No (Some (Z.of_nat (fst nr))) (snd nr))
        (combine (seq start (List.length df)) df) = df.
Proof.
  induction df as [|r df IH]; intros start H; [reflexivity|].
  cbn [List.length seq combine map fst snd] in *.
  injection H as Hr Hrest. rewrite (IH _ Hrest). f_equal.
  destruct r. cbn [Sr_No] in Hr. subst. reflexivity.
Qed.

Lemma renumber_dense (df : DataFrame) : dense df -> renumber df = df.
Proof. apply renumber_from_dense. Qed.

Lemma filter_renumber_keeps (faculty_name : string) (t : DataFrame) :
  (forall r, In r t -> matches_name faculty_name r = false) ->
  filter (fun r => negb (matches_name faculty_name r)) (renumber t) = renumber t.
Proof.
  intros H. apply filter_all. intros r Hr.
  apply renumber_In in Hr. destruct Hr as (r0 & n & Hin & ->).
  change (matches_name faculty_name (set_Sr_No n r0))
    with (matches_name faculty_name r0).
  now rewrite (H r0 Hin).
Qed.

Lemma matches_name_lower (a b : string) (r : row) :
  lower a = lower b -> matches_name a r = matches_name b r.
Proof.
  intros H. unfold matches_name. now rewrite H.
Qed.

(** X15: adding a faculty member and then deleting that name (written in
    any case) gives the table back: when no row bore the name before,
    the table after the two operations is the first table renumbered,
    and the first table itself when it was numbered 1..N. *)
Theorem X15_add_then_delete_restores_the_table
    (fa fd : form) (w : world) (df : DataFrame) :
  let faculty_name := strip (form_get fa "new_name" "") in
  let faculty_url := strip (form_get fa "new_url" "") in
  let delete_name := strip (form_get fd "delete_name" "") in
  form_get fa "admin_password" "" = ADMIN_PASSWORD ->
  faculty_name <> "" ->
  faculty_url <> "" ->
  contains "scholar.google" faculty_url = true ->
  contains "user=" faculty_url = true ->
  form_get fd "admin_password_del" "" = ADMIN_PASSWORD ->
  delete_name <> "" ->
  lower delete_name = lower faculty_name ->
  files w DATA_PATH = Some (Sheet df) ->
  write_fault w DATA_PATH = None ->
  (forall r, In r df -> matches_name faculty_name r = false) ->
  let w2 := snd (delete_faculty fd (snd (add_faculty fa w))) in
  files w2 DATA_PATH = Some (Sheet (renumber df)) /\
  (dense df -> files w2 DATA_PATH = files w DATA_PATH).
Proof.
  intros faculty_name faculty_url delete_name
    Hpw Hname Hurl Hs Hu Hpwd Hdname Hdel Hfile Hwrite Hno.
  rewrite (add_faculty_run fa w df Hpw Hname Hurl Hs Hu Hfile), Hwrite.
  cbn [snd]. fold faculty_name faculty_url.
  set (new_row := Row (Some (Z.of_nat (List.length df + 1))) (Text faculty_name)
                      (Text faculty_url) None None None).
  set (w1 := emits [ToExcel DATA_PATH] (write DATA_PATH (df ++ [new_row]) w)).
  assert (Hfile1 : files w1 DATA_PATH = Some (Sheet (df ++ [new_row])))
    by reflexivity.
  cbv zeta.
  rewrite (delete_faculty_run fd w1 (df ++ [new_row]) Hpwd Hdname Hfile1).
  fold delete_name.
  assert (Hkept : filter (fun r => negb (matches_name delete_name r))
                    (df ++ [new_row]) = df).
  { rewrite filter_app, filter_all
      by (intros r Hr;
          now rewrite (matches_name_lower _ _ r Hdel), (Hno r Hr)).
    cbn [filter]. rewrite (matches_name_lower _ _ new_row Hdel).
    unfold matches_name at 1. cbn [Name_of_Faculty new_row str].
    rewrite String.eqb_refl. cbn [negb]. apply app_nil_r. }
  rewrite Hkept, length_app. cbn [List.length].
  destruct (Nat.eqb_spec (List.length df) (List.length df + 1)) as [E|_]; [lia|].
  change (write_fault w1 DATA_PATH) with (write_fault w DATA_PATH).
  rewrite Hwrite. cbn [snd]. split; [reflexivity|].
  intros Hd. rewrite (renumber_dense df Hd), Hfile. reflexivity.
Qed.

(** X16: once a delete has removed the rows of a name, the same delete
    again finds nothing: it returns the error page "No faculty found"
    and leaves the file as the first delete wrote it. *)
Theorem X16_second_delete_finds_nothing (f : form) (w : world) (df : DataFrame) :
  form_get f "admin_password_del" "" = ADMIN_PASSWORD ->
  let faculty_name := strip (form_get f "delete_name" "") in
  faculty_name <> "" ->
  files w DATA_PATH = Some (Sheet df) ->
  write_fault w DATA_PATH = None ->
  (exists r, In r df /\ matches_name faculty_name r = true) ->
  let w1 := snd (delete_faculty f w) in
  delete_faculty f w1 =
  (Ok (result_one_error ("No faculty found with name '" ++ faculty_name ++ "'.")),
   w1).
Proof.
  intros Hpw faculty_name Hname Hfile Hwrite (r & Hin & Hr).
  rewrite (delete_faculty_run f w df Hpw Hname Hfile). fold faculty_name.
  set (kept := filter (fun r => negb (matches_name faculty_name r)) df).
  assert (Hlt : List.length kept < List.length df).
  { apply (filter_drops _ df r Hin). now rewrite Hr. }
  destruct (Nat.eqb_spec (List.length kept) (List.length df)) as [E|_]; [lia|].
  rewrite Hwrite. cbn [snd].
  set (w1 := emit (ToExcel DATA_PATH) (write DATA_PATH (renumber kept) w)).
  assert (Hfile1 : files w1 DATA_PATH = Some (Sheet (renumber kept)))
    by reflexivity.
  cbv zeta.
  rewrite (delete_faculty_run f w1 (renumber kept) Hpw Hname Hfile1).
  fold faculty_name. rewrite filter_renumber_keeps, Nat.eqb_refl; [reflexivity|].
  intros r0 Hr0. apply filter_In in Hr0. destruct Hr0 as [_ Hneg].
  now apply negb_true_iff in Hneg.
Qed.

(** ** More on [fetch_one] *)

(** X17: a single-record sync with an empty name, or for a name that no
    row bears (without regard to case), returns an error page and does
    nothing else: no request is sent and no file is written. *)
Theorem X17_sync_of_unknown_name_changes_nothing (f : form) (w : world) :
  let faculty_name := strip (form_get f "faculty_name" "") in
  faculty_name = "" \/
  (exists df,
      files w DATA_PATH = Some (Sheet df) /\
      forall r, In r df -> matches_name faculty_name r = false) ->
  exists msg, fetch_one f w = (Ok (result_one_error msg), w).
Proof.
  intros faculty_name H. unfold fetch_one. fold faculty_name.
  destruct (String.eqb_spec faculty_name "") as [Hn|Hn];
    [eexists; reflexivity|].
  destruct H as [H|(df & Hfile & Hno)]; [contradiction|].
  unfold bind at 1. rewrite (load_or_page_sheet _ _ _ Hfile).
  unfold name_mask. rewrite df_select_map.
  replace (filter (matches_name faculty_name) df) with (@nil row).
  - eexists; reflexivity.
  - symmetry. clear Hfile. induction df as [|r df IH]; [reflexivity|].
    cbn [filter]. rewrite (Hno r (or_introl eq_refl)). apply IH.
    intros r0 Hr0. apply Hno. now right.
Qed.

(** X18: when the fetch for the first matching row fails, the
    single-record sync returns the page "Failed to fetch data from
    Google Scholar." and writes nothing: both files are as before. *)
Theorem X18_failed_fetch_writes_nothing
    (f : form) (w : world) (df : DataFrame) (first : row) (others : list row) :
  let faculty_name := strip (form_get f "faculty_name" "") in
  faculty_name <> "" ->
  files w DATA_PATH = Some (Sheet df) ->
  filter (matches_name faculty_name) df = first :: others ->
  fst (fetch_scholar_data (url_of first) retries_default w) = Ok None ->
  fst (fetch_one f w) =
    Ok (result_one_error "Failed to fetch data from Google Scholar.") /\
  files (snd (fetch_one f w)) = files w.
Proof.
  intros faculty_name Hname Hfile Hmatch Hfetch.
  assert (E : exists l,
    fetch_one f w =
    (Ok (result_one_error "Failed to fetch data from Google Scholar."),
     emits l w)).
  { unfold fetch_one. fold faculty_name.
    apply String.eqb_neq in Hname. rewrite Hname.
    unfold bind at 1. rewrite (load_or_page_sheet _ _ _ Hfile).
    unfold name_mask. rewrite df_select_map, Hmatch. fold (url_of first).
    destruct (fetch_returns (url_of first) retries_default w) as (r & l & EF).
    rewrite EF in Hfetch. cbn [fst] in Hfetch. injection Hfetch as ->.
    unfold bind. rewrite EF. now exists l. }
  destruct E as [l E]. rewrite E. now split.
Qed.

(** X19: a single-record sync that succeeds sends requests for the
    profile of the first matching row only, at most two of them; in the
    table it saves, every row that does not bear the name is as it was,
    and a row that bears it differs in its three metric columns only. *)
Theorem X19_sync_requests_and_saved_table
    (f : form) (w : world) (df : DataFrame)
    (first : row) (others : list row) (data : scholar_data) :
  let faculty_name := strip (form_get f "faculty_name" "") in
  faculty_name <> "" ->
  files w DATA_PATH = Some (Sheet df) ->
  filter (matches_name faculty_name) df = first :: others ->
  fst (fetch_scholar_data (url_of first) retries_default w) = Ok (Some data) ->
  write_fault w DATA_PATH = None ->
  exists l saved,
    trace (snd (fetch_one f w)) = trace w ++ l ++ [ToExcel DATA_PATH] /\
    (forall q, In (Call q) l -> q = params_for (url_of first) w) /\
    calls l <= 2 /\
    files (snd (fetch_one f w)) DATA_PATH = Some (Sheet saved) /\
    Forall2
      (fun r r' =>
         if matches_name faculty_name r then r' = with_metrics data r
         else r' = r)
      df saved.
Proof.
  intros faculty_name Hname Hfile Hmatch Hfetch Hwrite.
  destruct (attempts_shape (url_of first) (params_for (url_of first) w) 2 0 w)
    as (r0 & l0 & E0 & Hq0 & Hn0).
  assert (Hshape : exists r l,
    fetch_scholar_data (url_of first) retries_default w = (Ok r, emits l w) /\
    (forall q, In (Call q) l -> q = params_for (url_of first) w) /\
    calls l <= 2).
  { destruct (contains "user=" (url_of first)) eqn:Hm.
    - rewrite (fetch_with_marker _ _ _ Hm). exists r0, l0.
      repeat split; auto. destruct r0; lia.
    - rewrite (fetch_without_marker _ _ _ Hm). do 2 eexists.
      split; [reflexivity|]. split; [|count_events].
      intros q [E|[]]. discriminate. }
  destruct Hshape as (r & l & EF & Hq & Hc).
  rewrite EF in Hfetch. cbn [fst] in Hfetch. injection Hfetch as ->.
  exists l, (map (fun r => if matches_name faculty_name r
                           then with_metrics data r else r) df).
  assert (E :
    fetch_one f w =
    (Ok (result_one_data data faculty_name (url_of first)),
     emits [ToExcel DATA_PATH]
       (write DATA_PATH
          (map (fun r => if matches_name faculty_name r
                         then with_metrics data r else r) df)
          (emits l w)))).
  { unfold fetch_one. fold faculty_name.
    apply String.eqb_neq in Hname. rewrite Hname.
    unfold bind at 1. rewrite (load_or_page_sheet _ _ _ Hfile).
    unfold name_mask. rewrite df_select_map, Hmatch. fold (url_of first).
    unfold bind at 1. rewrite EF. rewrite loc_set_metrics.
    unfold bind, ret. rewrite save_or_skip_run.
    cbn [write_fault emits]. rewrite Hwrite. reflexivity. }
  rewrite E. cbn [snd]. repeat split; auto.
  - cbn [trace emits write]. now rewrite <- app_assoc.
  - clear. induction df as [|r df IH]; cbn [map]; constructor; auto.
    now destruct (matches_name faculty_name r).
Qed.

(** ** [download_updated] after a bulk sync *)

Lemma download_updated_run (w : world) :
  download_updated w =
  match files w UPDATED_PATH with
  | Some content => (Ok (attachment UPDATED_PATH content), w)
  | None =>
      (Ok (plain_text "Updated Excel file not found. Please run update first."
             404), w)
  end.
Proof.
  unfold download_updated, bind, os_path_exists, send_file, ret.
  destruct (files w UPDATED_PATH) eqn:E; cbn [negb]; now rewrite ?E.
Qed.

(** X20: the [download_ready] flag of the bulk-sync report tells what
    the download route does next: when it is true the download sends the
    snapshot file, when it is false the download answers 404; in both
    cases the download changes nothing. *)
Theorem X20_download_ready_agrees_with_download
    (w : world) (u t : nat) (fl : list string) (ready : bool) :
  fst (update_excel w) = Ok (result_all u t fl ready) ->
  let w' := snd (update_excel w) in
  if ready then
    exists content,
      download_updated w' = (Ok (attachment UPDATED_PATH content), w')
  else
    download_updated w' =
    (Ok (plain_text "Updated Excel file not found. Please run update first."
           404), w').
Proof.
  intros H. cbv zeta. rewrite download_updated_run.
  destruct (files w DATA_PATH) as [[x|df]|] eqn:Hfile.
  - unfold update_excel, bind in H. rewrite load_or_page_run, Hfile in H.
    discriminate.
  - destruct (update_excel_run w df Hfile)
      as (df' & u' & l & fl' & _ & _ & _ & _ & _ & E).
    rewrite E in *. destruct (write_fault w UPDATED_PATH) as [e|].
    + destruct (isinstance e PermissionError); [|discriminate].
      cbn [fst snd] in *. injection H as _ _ _ <-.
      cbn [files emits]. destruct (files w UPDATED_PATH); eauto.
    + cbn [fst snd] in *. injection H as _ _ _ <-.
      cbn [files emits write path_eqb]. eauto.
  - unfold update_excel, bind in H. rewrite load_or_page_run, Hfile in H.
    discriminate.
Qed.

(** X21: after a bulk sync whose snapshot write goes through, the
    download sends the snapshot of this run: the rows of the loaded
    table, each as it was or with fetched metrics.  Row by row
    ([synced]): a row is kept when its URL is not usable or its fetch in
    this run returned None, and has exactly the data its fetch in this
    run returned otherwise. *)
Theorem X21_download_sends_the_new_snapshot (w : world) (df : DataFrame) :
  files w DATA_PATH = Some (Sheet df) ->
  write_fault w UPDATED_PATH = None ->
  exists df',
    Forall2 metrics_only df df' /\
    fst (download_updated (snd (update_excel w))) =
      Ok (attachment UPDATED_PATH (Sheet df')) /\
    (exists w', synced w df df' w') /\
    (forall other w2, synced w df other w2 -> other = df').
Proof.
  intros Hfile Hwrite.
  destruct (update_excel_synced w df Hfile Hwrite) as (df' & w' & Hs & Hdf & E).
  exists df'. rewrite E, download_updated_run.
  split; [exact Hdf|]. split; [reflexivity|]. split; [now exists w'|].
  intros other w2 H2. now destruct (synced_functional _ _ _ _ H2 _ _ Hs).
Qed.

(** X22: when the snapshot write is skipped on a [PermissionError] while
    a snapshot of an earlier run exists, the report still says
    [download_ready], and the download sends that earlier snapshot:
    nothing of this run is in it. *)
Theorem X22_skipped_save_leaves_the_old_snapshot
    (w : world) (df : DataFrame) (e : exn) (old : file) :
  files w DATA_PATH = Some (Sheet df) ->
  write_fault w UPDATED_PATH = Some e ->
  isinstance e PermissionError = true ->
  files w UPDATED_PATH = Some old ->
  (exists u fl,
      fst (update_excel w) = Ok (result_all u (List.length df) fl true)) /\
  fst (download_updated (snd (update_excel w))) =
    Ok (attachment UPDATED_PATH old).
Proof.
  intros Hfile Hwrite He Hold.
  destruct (update_excel_run w df Hfile)
    as (df' & u & l & fl & _ & _ & _ & _ & _ & E).
  rewrite E, Hwrite, He, Hold, download_updated_run. cbn [fst snd files emits].
  rewrite Hold. split; [now exists u, fl | reflexivity].
Qed.

(** ** Rows without a usable URL are reported *)

Lemma update_rows_lists_unusable (rows : list (nat * row)) :
  forall st w st' w',
    update_rows rows st w = (Ok st', w') ->
    (forall n, In n (failed_list st) -> In n (failed_list st')) /\
    (forall ir, In ir rows -> usable (snd ir) = false ->
                In (name_of (snd ir)) (failed_list st')) /\
    updated_count st' <=
      updated_count st + List.length (filter usable (map snd rows)).
Proof.
  induction rows as [|[idx r] rows IH]; intros st w st' w' E.
  - cbn [update_rows] in E. unfold ret in E. injection E as <- _.
    split; [auto | split; [intros ir [] | cbn; lia]].
  - cbn [map snd filter]. destruct (usable r) eqn:Hu.
    + rewrite (update_rows_fetch _ _ _ _ _ (usable_true _ Hu)) in E.
      destruct (fetch_returns (url_of r) retries_default
                  (emit (Print (Updating (name_of r))) w)) as (d & l & Ef).
      rewrite Ef in E. destruct d as [data|];
        destruct (IH _ _ _ _ E) as (Hkeep & Hnew & Hcount);
        cbn [failed_list updated_count List.length] in *;
        (split; [|split]); try lia.
      * auto.
      * intros ir [<-|Hin] Hur; cbn [snd] in *; [congruence | auto].
      * intros n Hn. apply Hkeep, in_or_app. now left.
      * intros ir [<-|Hin] Hur; cbn [snd] in *; [congruence | auto].
    + rewrite (update_rows_skip _ _ _ _ _ (usable_false _ Hu)) in E.
      destruct (IH _ _ _ _ E) as (Hkeep & Hnew & Hcount).
      cbn [failed_list updated_count] in *.
      split; [|split]; try lia.
      * intros n Hn. apply Hkeep, in_or_app. now left.
      * intros ir [<-|Hin] Hur; cbn [snd]; [|auto].
        apply Hkeep, in_or_app. right. now left.
Qed.

Lemma update_excel_lists_unusable (w : world) (df : DataFrame)
    (u t : nat) (fl : list string) (ready : bool) :
  files w DATA_PATH = Some (Sheet df) ->
  fst (update_excel w) = Ok (result_all u t fl ready) ->
  (forall r, In r df -> usable r = false -> In (name_of r) fl) /\
  u <= List.length (filter usable df).
Proof.
  intros Hfile H.
  unfold update_excel in H. unfold bind at 1 in H.
  rewrite (load_or_page_sheet _ _ _ Hfile) in H. unfold bind at 1 in H.
  destruct (update_rows (iterrows df) (SyncState df 0 []) w)
    as [[st|e] w1] eqn:E; [|discriminate].
  assert (Hfl : fl = failed_list st /\ u = updated_count st).
  { unfold bind, os_path_exists, ret in H. rewrite save_or_skip_run in H.
    destruct (write_fault w1 UPDATED_PATH) as [e|].
    - destruct (isinstance e PermissionError); [|discriminate].
      cbn [fst] in H. now injection H as <- _ <- _.
    - cbn [fst] in H. now injection H as <- _ <- _. }
  destruct Hfl as [-> ->].
  destruct (update_rows_lists_unusable _ _ _ _ _ E) as (_ & Hnew & Hcount).
  rewrite iterrows_snd in Hcount. cbn [updated_count] in Hcount.
  split; [|exact Hcount].
  intros r Hin Hu.
  rewrite <- (iterrows_snd df) in Hin. apply in_map_iff in Hin.
  destruct Hin as ([idx r'] & Er & Hin'). cbn [snd] in Er. subst r'.
  exact (Hnew (idx, r) Hin' Hu).
Qed.

(** X24: in the report of a bulk sync, every row whose URL is empty or
    does not start with "http" is in the failed list, and the number of
    updated rows is at most the number of rows with a usable URL. *)
Theorem X24_unusable_rows_are_reported_failed (w : world) (df : DataFrame)
    (u t : nat) (fl : list string) (ready : bool) :
  files w DATA_PATH = Some (Sheet df) ->
  fst (update_excel w) = Ok (result_all u t fl ready) ->
  (forall r, In r df -> usable r = false -> In (name_of r) fl) /\
  u <= List.length (filter usable df).
Proof.
  intros Hfile H. now apply (update_excel_lists_unusable w df u t fl ready).
Qed.

(** X23: the add route accepts a profile URL that has "scholar.google"
    and "user=" but does not start with "http", while the bulk sync
    fetches only URLs that start with "http": the row of such an add is
    never requested by a bulk sync, which reports its name as failed. *)
Theorem X23_url_without_scheme_is_added_but_never_synced
    (f : form) (w : world) (df : DataFrame) :
  let faculty_name := strip (form_get f "new_name" "") in
  let faculty_url := strip (form_get f "new_url" "") in
  form_get f "admin_password" "" = ADMIN_PASSWORD ->
  faculty_name <> "" ->
  faculty_url <> "" ->
  contains "scholar.google" faculty_url = true ->
  contains "user=" faculty_url = true ->
  startswith faculty_url "http" = false ->
  strip faculty_url = faculty_url ->
  files w DATA_PATH = Some (Sheet df) ->
  write_fault w DATA_PATH = None ->
  (forall e, write_fault w UPDATED_PATH = Some e ->
             isinstance e PermissionError = true) ->
  let w1 := snd (add_faculty f w) in
  fst (add_faculty f w) =
    Ok (result_one_message
          ("Faculty '" ++ faculty_name ++ "' added successfully.")) /\
  exists u fl ready,
    fst (update_excel w1) = Ok (result_all u (List.length df + 1) fl ready) /\
    In faculty_name fl /\
    calls (trace (snd (update_excel w1))) <=
      calls (trace w) + 2 * List.length (filter usable df).
Proof.
  intros faculty_name faculty_url Hpw Hname Hurl Hs Hu Hhttp Hstrip
    Hfile Hwrite Hfault.
  rewrite (add_faculty_run f w df Hpw Hname Hurl Hs Hu Hfile), Hwrite.
  cbn [fst snd]. fold faculty_name faculty_url.
  set (new_row := Row (Some (Z.of_nat (List.length df + 1))) (Text faculty_name)
                      (Text faculty_url) None None None).
  set (w1 := emits [ToExcel DATA_PATH] (write DATA_PATH (df ++ [new_row]) w)).
  split; [reflexivity|].
  assert (Hfile1 : files w1 DATA_PATH = Some (Sheet (df ++ [new_row])))
    by reflexivity.
  assert (Hnew : usable new_row = false).
  { unfold usable, url_of. cbn [Google_Scholar_Profile_URL new_row str].
    rewrite Hstrip, Hhttp. now rewrite orb_true_r. }
  destruct (update_excel_run w1 (df ++ [new_row]) Hfile1)
    as (df' & u & l & fl & _ & _ & Hc & _ & _ & E).
  rewrite filter_app in Hc. cbn [filter] in Hc. rewrite Hnew, app_nil_r in Hc.
  assert (Hres : exists ready,
    fst (update_excel w1) =
      Ok (result_all u (List.length df + 1) fl ready) /\
    calls (trace (snd (update_excel w1))) <=
      calls (trace w) + 2 * List.length (filter usable df)).
  { rewrite E. change (write_fault w1 UPDATED_PATH)
      with (write_fault w UPDATED_PATH).
    rewrite length_app. cbn [List.length].
    destruct (write_fault w UPDATED_PATH) as [e|].
    - rewrite (Hfault e eq_refl). eexists. split; [reflexivity|].
      cbn [snd]. rewrite trace_emits. cbn [trace w1 emits write]. count_events.
    - exists true. split; [reflexivity|].
      cbn [snd trace w1 emits write]. count_events. }
  destruct Hres as (ready & Hr & Hcalls).
  exists u, fl, ready. repeat split; auto.
  change faculty_name with (name_of new_row).
  apply (proj1 (update_excel_lists_unusable w1 (df ++ [new_row]) _ _ _ _
                  Hfile1 Hr)).
  - apply in_or_app. right. now left.
  - exact Hnew.
Qed.

End Program.

(** ** Concrete runs

    The program with the ASCII string functions, on the sample data. *)

Example split_user_id :
  user_id_of "https://scholar.google.com/citations?user=AbC12&hl=en" = "AbC12".
Proof. reflexivity. Qed.

Lemma C6_witness :
  let run :=
    fetch_scholar_data Ascii7.int_of_str "https://example.org/profile/42" 2
      (world_of (fun _ _ => Ok j_doe) None) in
  fst run = Ok None /\
  trace (snd run) = [Print (InvalidScholarURL "https://example.org/profile/42")] /\
  calls (trace (snd run)) = 0.
Proof.
  apply (C6_no_marker_returns_None_without_call Ascii7.int_of_str
           "https://example.org/profile/42" 2
           (world_of (fun _ _ => Ok j_doe) None)).
  reflexivity.
Defined.

Lemma C4_witness :
  fst (fetch_scholar_data Ascii7.int_of_str (scholar_url "AbC12") 2
         (world_of (fun _ _ => Ok j_doe) None)) =
  Ok (Some (ScholarData (PStr "J. Doe") 120 9 4)).
Proof.
  apply (C4_j_doe_record Ascii7.int_of_str (scholar_url "AbC12") 2
           (world_of (fun _ _ => Ok j_doe) None)
           [("author", PDict [("name", PStr "J. Doe")]);
            ("cited_by",
             PDict [("table",
                     PList [PDict [("citations", PDict [("all", PInt 120)])];
                            PDict [("h_index", PDict [("all", PInt 9)])];
                            PDict [("i10_index", PDict [("all", PInt 4)])]])])]
           [("name", PStr "J. Doe")]
           [("table",
             PList [PDict [("citations", PDict [("all", PInt 120)])];
                    PDict [("h_index", PDict [("all", PInt 9)])];
                    PDict [("i10_index", PDict [("all", PInt 4)])]])]);
    try reflexivity.
  lia.
Defined.

Lemma C3_witness :
  let w := world_of (fun _ _ => Ok blank_response) None in
  let p := params_for (scholar_url "AbC12") w in
  let run := fetch_scholar_data Ascii7.int_of_str (scholar_url "AbC12") 2 w in
  contains "user=" (scholar_url "AbC12") = true /\
  calls (trace (snd run)) <= 2 /\
  (exists rest,
     trace (snd run) =
     [Call p; Print (EmptyData 1 (scholar_url "AbC12")); Sleep; Call p] ++ rest) /\
  fst run = Ok None.
Proof.
  intros w p run.
  destruct (C3_two_attempts_retry_on_empty Ascii7.int_of_str
              (scholar_url "AbC12") w eq_refl) as (A & B & _ & C).
  split; [reflexivity|]. split; [exact A|]. split.
  - apply (B blank_response
             (RawMetrics (PStr "Unknown") (PInt 0) (PInt 0) (PInt 0)));
      reflexivity.
  - apply (C (Ok Continue) (Ok Continue)); try reflexivity;
      intros d; discriminate.
Defined.

(** C5 as stated fails: the all-time value is present (it is 0), yet the
    value since 2020 is selected. *)
Lemma C5_counterexample :
  let d := [("all", PInt 0); ("since_2020", PInt 5)] in
  groups_of zero_all_time = [PDict [("citations", PDict d)]] /\
  lookup "all" d = Some (PInt 0) /\
  all_time_when_present d = PInt 0 /\
  exists r, normalize zero_all_time = Ok r /\ citations_all r = PInt 5.
Proof.
  repeat split. eexists. split; reflexivity.
Qed.

Lemma C5_witness :
  Metric (groups_of zero_all_time) 0 "citations" (PInt 5) /\
  Metric (groups_of zero_all_time) 1 "h_index" (PInt 0) /\
  Metric (groups_of zero_all_time) 2 "i10_index" (PInt 0).
Proof.
  apply (C5_first_usable_window zero_all_time
           (RawMetrics (PStr "N. Ew") (PInt 5) (PInt 0) (PInt 0))).
  reflexivity.
Defined.

(** C1 fails on the code: the sync of "alice rao" fetches the profile of
    the first matching row only (one request, for AAA), yet it writes
    the fetched metrics into both matching rows; the third row, whose
    profile is CCC, loses its values 7, 1 and 0. *)
Lemma C1_every_matching_row_is_overwritten :
  let run :=
    fetch_one Ascii7.lower Ascii7.strip Ascii7.int_of_str
      [("faculty_name", "alice rao")]
      (world_of only_AAA (Some (Sheet faculty_table))) in
  fst run =
    Ok (result_one_data (ScholarData (PStr "J. Doe") 120 9 4) "alice rao"
          (scholar_url "AAA")) /\
  calls (trace (snd run)) = 1 /\
  files (snd run) DATA_PATH =
    Some (Sheet
      [Row (Some 1%Z) (Text "Alice Rao") (Text (scholar_url "AAA"))
           (Some 120%Z) (Some 9%Z) (Some 4%Z);
       Row (Some 2%Z) (Text "Bob Iyer") (Text (scholar_url "BBB"))
           (Some 50%Z) (Some 4%Z) (Some 2%Z);
       Row (Some 3%Z) (Text "ALICE RAO") (Text (scholar_url "CCC"))
           (Some 120%Z) (Some 9%Z) (Some 4%Z)]).
Proof.
  vm_compute. repeat split.
Qed.


Lemma C7_witness :
  let remaining :=
    filter (fun r => negb (matches_name Ascii7.lower
                             (Ascii7.strip "bob iyer") r)) faculty_table in
  exists new_df,
    files (snd (delete_faculty Ascii7.lower Ascii7.strip
                  (delete_form "bob iyer")
                  (world_of only_AAA (Some (Sheet faculty_table)))))
          DATA_PATH = Some (Sheet new_df) /\
    Forall2 renumbered remaining new_df /\
    List.length new_df = List.length remaining /\
    List.length new_df < 3 /\
    map Sr_No new_df =
      map (fun n => Some (Z.of_nat n)) (seq 1 (List.length new_df)).
Proof.
  apply (C7_delete_renumbers_densely Ascii7.lower Ascii7.strip
           (delete_form "bob iyer")
           (world_of only_AAA (Some (Sheet faculty_table))) faculty_table).
  - reflexivity.
  - vm_compute. discriminate.
  - reflexivity.
  - reflexivity.
  - exists (Row (Some 2%Z) (Text "Bob Iyer") (Text (scholar_url "BBB"))
                (Some 50%Z) (Some 4%Z) (Some 2%Z)).
    split; [right; left; reflexivity | reflexivity].
Defined.

Lemma C10_witness :
  let run :=
    delete_faculty Ascii7.lower Ascii7.strip (delete_form "Alice Rao")
      (world_of only_AAA (Some (Sheet faculty_table))) in
  let new_df :=
    [Row (Some 1%Z) (Text "Bob Iyer") (Text (scholar_url "BBB"))
         (Some 50%Z) (Some 4%Z) (Some 2%Z)] in
  2 <= List.length (filter (matches_name Ascii7.lower "Alice Rao") faculty_table) /\
  files (snd run) DATA_PATH = Some (Sheet new_df) /\
  (forall r, In r new_df -> matches_name Ascii7.lower "Alice Rao" r = false) /\
  List.length new_df + 2 = 3.
Proof.
  intros run new_df.
  assert (Htwo : 2 <= List.length
                        (filter (matches_name Ascii7.lower "Alice Rao")
                           faculty_table))
    by (vm_compute; lia).
  split; [exact Htwo|].
  apply (C10_delete_removes_every_match Ascii7.lower Ascii7.strip
           (delete_form "Alice Rao")
           (world_of only_AAA (Some (Sheet faculty_table))) faculty_table).
  - reflexivity.
  - vm_compute. discriminate.
  - reflexivity.
  - reflexivity.
  - exact Htwo.
Defined.

(** C8 as stated fails: when the save fails with an [OSError] that is no
    [PermissionError] (the disk is full), each of the four operations
    raises it to its caller. *)
Lemma C8_counterexample :
  let w :=
    relock disk_full (world_of only_AAA (Some (Sheet faculty_table))) in
  let e := Exn OSError "No space left on device" in
  write_fault w DATA_PATH = Some e /\
  write_fault w UPDATED_PATH = Some e /\
  fst (fetch_one Ascii7.lower Ascii7.strip Ascii7.int_of_str
         [("faculty_name", "alice rao")] w) = Raise e /\
  fst (add_faculty Ascii7.strip
         [("admin_password", "pratik123"); ("new_name", "Chitra Das");
          ("new_url", scholar_url "DDD")] w) = Raise e /\
  fst (delete_faculty Ascii7.lower Ascii7.strip (delete_form "bob iyer") w) =
    Raise e /\
  fst (update_excel Ascii7.strip Ascii7.int_of_str w) = Raise e.
Proof.
  vm_compute. repeat split.
Qed.

Lemma C8_witness :
  let w := relock locked (world_of only_AAA (Some (Sheet faculty_table))) in
  exists page page',
    fst (delete_faculty Ascii7.lower Ascii7.strip (delete_form "bob iyer") w) =
      Ok page /\
    fst (delete_faculty Ascii7.lower Ascii7.strip (delete_form "bob iyer")
           (relock writable w)) = Ok page' /\
    same_report page page' /\
    files (snd (delete_faculty Ascii7.lower Ascii7.strip
                  (delete_form "bob iyer") w)) = files w.
Proof.
  intros w.
  apply (C8_permission_error_is_not_fatal Ascii7.lower Ascii7.strip
           Ascii7.int_of_str (DeleteFaculty (delete_form "bob iyer")) w
           (Exn PermissionError "Permission denied")); reflexivity.
Defined.

(** ** Concrete runs of the further properties *)

Lemma X1_witness :
  let w := world_of only_AAA None in
  exists id before after rest,
    trace (snd (fetch_scholar_data Ascii7.int_of_str (scholar_url "AbC12") 2 w)) =
      trace w
      ++ Call (Request "google_scholar_author" id "en" (SERPAPI_KEY w)) :: rest /\
    scholar_url "AbC12" = (before ++ "user=" ++ id ++ after)%string /\
    contains "user=" before = false /\
    contains "&" id = false /\
    contains "user=" id = false /\
    (after = "" \/ String.prefix "&" after = true
     \/ String.prefix "user=" after = true).
Proof.
  apply (X1_request_carries_the_identifier Ascii7.int_of_str
           (scholar_url "AbC12") 2 (world_of only_AAA None)).
  - reflexivity.
  - lia.
Defined.

Lemma X3_witness :
  let w := world_of (fun _ _ => Ok new_profile) None in
  let p := params_for (scholar_url "NEW") w in
  fetch_scholar_data Ascii7.int_of_str (scholar_url "NEW") 2 w =
  (Ok (Some (ScholarData (PStr "N. Ew") 0 0 0)),
   emits [Call p; Print (Fetched (PStr "N. Ew") 0 0 0)] w).
Proof.
  apply (X3_resolved_answer_is_returned_at_once Ascii7.int_of_str
           (scholar_url "NEW") 2 (world_of (fun _ _ => Ok new_profile) None)
           new_profile
           (RawMetrics (PStr "N. Ew") (PInt 0) (PInt 0) (PInt 0)) 0 0 0);
    try reflexivity.
  - lia.
  - left. discriminate.
Defined.

Lemma X4_witness :
  let w := world_of second_time_lucky None in
  let p := params_for (scholar_url "AbC12") w in
  let e := Exn Exception "timed out" in
  fetch_scholar_data Ascii7.int_of_str (scholar_url "AbC12") 2 w =
  (Ok (Some (ScholarData (PStr "J. Doe") 120 9 4)),
   emits [Call p; Print (ErrorAttempt 1 (scholar_url "AbC12") e); Sleep;
          Call p; Print (Fetched (PStr "J. Doe") 120 9 4)] w).
Proof.
  apply (X4_second_attempt_recovers Ascii7.int_of_str (scholar_url "AbC12")
           (world_of second_time_lucky None)
           (Raise (Exn Exception "timed out"))
           (ScholarData (PStr "J. Doe") 120 9 4)).
  - reflexivity.
  - reflexivity.
  - intros d. discriminate.
  - reflexivity.
Defined.

Lemma X5_witness :
  exists r,
    normalize swapped_groups = Ok r /\
    citations_all r = PInt 0 /\ h_index_all r = PInt 0.
Proof.
  exists (RawMetrics (PStr "J. Doe") (PInt 0) (PInt 0) (PInt 0)).
  destruct (X5_group_without_its_key_gives_zero swapped_groups
              (RawMetrics (PStr "J. Doe") (PInt 0) (PInt 0) (PInt 0)) eq_refl)
    as (Hc & Hh & _).
  split; [reflexivity|]. split.
  - apply (Hc [("h_index", PDict [("all", PInt 9)])]); reflexivity.
  - apply (Hh [("citations", PDict [("all", PInt 120)])]); reflexivity.
Defined.

Lemma X6_witness :
  exists u fl ready,
    fst (update_excel Ascii7.strip Ascii7.int_of_str
           (world_of only_AAA (Some (Sheet three_rows)))) =
      Ok (result_all u (List.length three_rows) fl ready) /\
    u + List.length fl = List.length three_rows /\
    incl fl (map name_of three_rows).
Proof.
  apply (X6_bulk_sync_counts_every_row Ascii7.strip Ascii7.int_of_str
           (world_of only_AAA (Some (Sheet three_rows))) three_rows).
  - reflexivity.
  - intros e H. discriminate.
Defined.

Lemma X8_witness :
  let w := world_of only_AAA (Some (Sheet three_rows)) in
  let run := update_excel Ascii7.strip Ascii7.int_of_str w in
  exists df',
    files (snd run) UPDATED_PATH = Some (Sheet df') /\
    Forall2 metrics_only three_rows df' /\
    (exists w',
        synced Ascii7.strip Ascii7.int_of_str w three_rows df' w' /\
        snd run = emits [ToExcel UPDATED_PATH] (write UPDATED_PATH df' w')) /\
    (forall other w2,
        synced Ascii7.strip Ascii7.int_of_str w three_rows other w2 ->
        other = df').
Proof.
  apply (X8_snapshot_changes_metrics_only Ascii7.strip Ascii7.int_of_str
           (world_of only_AAA (Some (Sheet three_rows))) three_rows);
    reflexivity.
Defined.

Lemma X9_witness :
  let w := world_of only_AAA (Some (Sheet three_rows)) in
  let w' := snd (update_excel Ascii7.strip Ascii7.int_of_str w) in
  calls (trace w') <=
    calls (trace w) + 2 * List.length (filter (usable Ascii7.strip) three_rows) /\
  sleeps (trace w) + List.length (filter (usable Ascii7.strip) three_rows) <=
    sleeps (trace w').
Proof.
  apply (X9_bulk_sync_requests_and_delays Ascii7.strip Ascii7.int_of_str
           (world_of only_AAA (Some (Sheet three_rows))) three_rows).
  reflexivity.
Defined.

Lemma X10_witness :
  let w := world_of only_AAA (Some (Sheet without_urls)) in
  update_excel Ascii7.strip Ascii7.int_of_str w =
  (Ok (result_all 0 2 ["A"; "B"] true),
   emits [ToExcel UPDATED_PATH] (write UPDATED_PATH without_urls w)).
Proof.
  apply (X10_no_usable_url_no_request Ascii7.strip Ascii7.int_of_str
           (world_of only_AAA (Some (Sheet without_urls))) without_urls).
  - reflexivity.
  - intros r [<-|[<-|[]]]; reflexivity.
  - reflexivity.
Defined.

Lemma X11_witness :
  let w := world_of only_AAA None in
  exists page,
    run Ascii7.lower Ascii7.strip Ascii7.int_of_str
      (FetchOne [("faculty_name", "Alice Rao")]) w = (Ok page, w) /\
    error_page page.
Proof.
  apply (X11_without_the_table_nothing_happens Ascii7.lower Ascii7.strip
           Ascii7.int_of_str (FetchOne [("faculty_name", "Alice Rao")])
           (world_of only_AAA None)).
  intros df. discriminate.
Defined.

Lemma X12_witness :
  let f := add_form "pratik123" "  Chitra Das " (scholar_url "DDD") in
  let w := world_of only_AAA (Some (Sheet faculty_table)) in
  let saved :=
    faculty_table
    ++ [Row (Some 4%Z) (Text "Chitra Das") (Text (scholar_url "DDD"))
            None None None] in
  fst (add_faculty Ascii7.strip f w) =
    Ok (result_one_message "Faculty 'Chitra Das' added successfully.") /\
  files (snd (add_faculty Ascii7.strip f w)) DATA_PATH = Some (Sheet saved) /\
  (dense faculty_table -> dense saved).
Proof.
  apply (X12_add_appends_one_row Ascii7.strip
           (add_form "pratik123" "  Chitra Das " (scholar_url "DDD"))
           (world_of only_AAA (Some (Sheet faculty_table))) faculty_table);
    try reflexivity; vm_compute; discriminate.
Defined.


Lemma X14_witness :
  let w := world_of only_AAA (Some (Sheet faculty_table)) in
  exists msg,
    delete_faculty Ascii7.lower Ascii7.strip (delete_form "Nobody") w =
    (Ok (result_one_error msg), w).
Proof.
  apply (X14_delete_refused_changes_nothing Ascii7.lower Ascii7.strip
           (delete_form "Nobody")
           (world_of only_AAA (Some (Sheet faculty_table)))).
  right. right. exists faculty_table. split; [reflexivity|].
  intros r [<-|[<-|[<-|[]]]]; reflexivity.
Defined.

Lemma X15_witness :
  let fa := add_form "pratik123" "Chitra Das" (scholar_url "DDD") in
  let fd := delete_form "CHITRA DAS" in
  let w := world_of only_AAA (Some (Sheet faculty_table)) in
  let w2 :=
    snd (delete_faculty Ascii7.lower Ascii7.strip fd
           (snd (add_faculty Ascii7.strip fa w))) in
  dense faculty_table /\
  files w2 DATA_PATH = Some (Sheet faculty_table).
Proof.
  intros fa fd w w2.
  assert (Hd : dense faculty_table) by reflexivity.
  split; [exact Hd|].
  assert (Hname : Ascii7.strip (form_get fa "new_name" "") <> "")
    by (vm_compute; discriminate).
  assert (Hurl : Ascii7.strip (form_get fa "new_url" "") <> "")
    by (vm_compute; discriminate).
  assert (Hdel : Ascii7.strip (form_get fd "delete_name" "") <> "")
    by (vm_compute; discriminate).
  assert (Hno : forall r, In r faculty_table ->
            matches_name Ascii7.lower
              (Ascii7.strip (form_get fa "new_name" "")) r = false)
    by (intros r [<-|[<-|[<-|[]]]]; reflexivity).
  exact (proj2 (X15_add_then_delete_restores_the_table Ascii7.lower
                  Ascii7.strip fa fd w faculty_table eq_refl Hname Hurl
                  eq_refl eq_refl eq_refl Hdel eq_refl eq_refl eq_refl Hno)
               Hd).
Defined.

Lemma X16_witness :
  let f := delete_form "bob iyer" in
  let w := world_of only_AAA (Some (Sheet faculty_table)) in
  let w1 := snd (delete_faculty Ascii7.lower Ascii7.strip f w) in
  delete_faculty Ascii7.lower Ascii7.strip f w1 =
  (Ok (result_one_error "No faculty found with name 'bob iyer'."), w1).
Proof.
  apply (X16_second_delete_finds_nothing Ascii7.lower Ascii7.strip
           (delete_form "bob iyer")
           (world_of only_AAA (Some (Sheet faculty_table))) faculty_table).
  - reflexivity.
  - vm_compute. discriminate.
  - reflexivity.
  - reflexivity.
  - exists (Row (Some 2%Z) (Text "Bob Iyer") (Text (scholar_url "BBB"))
                (Some 50%Z) (Some 4%Z) (Some 2%Z)).
    split; [right; left; reflexivity | reflexivity].
Defined.

Lemma X17_witness :
  let w := world_of only_AAA (Some (Sheet faculty_table)) in
  exists msg,
    fetch_one Ascii7.lower Ascii7.strip Ascii7.int_of_str
      [("faculty_name", "Nobody")] w =
    (Ok (result_one_error msg), w).
Proof.
  apply (X17_sync_of_unknown_name_changes_nothing Ascii7.lower Ascii7.strip
           Ascii7.int_of_str [("faculty_name", "Nobody")]
           (world_of only_AAA (Some (Sheet faculty_table)))).
  right. exists faculty_table. split; [reflexivity|].
  intros r [<-|[<-|[<-|[]]]]; reflexivity.
Defined.

Lemma X18_witness :
  let f := [("faculty_name", "bob iyer")] in
  let w := world_of only_AAA (Some (Sheet faculty_table)) in
  fst (fetch_one Ascii7.lower Ascii7.strip Ascii7.int_of_str f w) =
    Ok (result_one_error "Failed to fetch data from Google Scholar.") /\
  files (snd (fetch_one Ascii7.lower Ascii7.strip Ascii7.int_of_str f w)) =
    files w.
Proof.
  apply (X18_failed_fetch_writes_nothing Ascii7.lower Ascii7.strip
           Ascii7.int_of_str [("faculty_name", "bob iyer")]
           (world_of only_AAA (Some (Sheet faculty_table))) faculty_table
           (Row (Some 2%Z) (Text "Bob Iyer") (Text (scholar_url "BBB"))
                (Some 50%Z) (Some 4%Z) (Some 2%Z)) []).
  - vm_compute. discriminate.
  - reflexivity.
  - reflexivity.
  - reflexivity.
Defined.

Lemma X19_witness :
  let f := [("faculty_name", "alice rao")] in
  let w := world_of only_AAA (Some (Sheet faculty_table)) in
  let first :=
    Row (Some 1%Z) (Text "Alice Rao") (Text (scholar_url "AAA"))
        None None None in
  let data := ScholarData (PStr "J. Doe") 120 9 4 in
  let run := fetch_one Ascii7.lower Ascii7.strip Ascii7.int_of_str f w in
  exists l saved,
    trace (snd run) = trace w ++ l ++ [ToExcel DATA_PATH] /\
    (forall q, In (Call q) l -> q = params_for (url_of Ascii7.strip first) w) /\
    calls l <= 2 /\
    files (snd run) DATA_PATH = Some (Sheet saved) /\
    Forall2
      (fun r r' =>
         if matches_name Ascii7.lower (Ascii7.strip "alice rao") r
         then r' = with_metrics data r
         else r' = r)
      faculty_table saved.
Proof.
  apply (X19_sync_requests_and_saved_table Ascii7.lower Ascii7.strip
           Ascii7.int_of_str [("faculty_name", "alice rao")]
           (world_of only_AAA (Some (Sheet faculty_table))) faculty_table
           (Row (Some 1%Z) (Text "Alice Rao") (Text (scholar_url "AAA"))
                None None None)
           [Row (Some 3%Z) (Text "ALICE RAO") (Text (scholar_url "CCC"))
                (Some 7%Z) (Some 1%Z) (Some 0%Z)]
           (ScholarData (PStr "J. Doe") 120 9 4)).
  - vm_compute. discriminate.
  - reflexivity.
  - reflexivity.
  - reflexivity.
  - reflexivity.
Defined.

Lemma X20_witness :
  let w := world_of only_AAA (Some (Sheet three_rows)) in
  let w' := snd (update_excel Ascii7.strip Ascii7.int_of_str w) in
  exists content,
    download_updated w' = (Ok (attachment UPDATED_PATH content), w').
Proof.
  apply (X20_download_ready_agrees_with_download Ascii7.strip
           Ascii7.int_of_str (world_of only_AAA (Some (Sheet three_rows)))
           1 3 ["B"; "C"] true).
  reflexivity.
Defined.

Lemma X21_witness :
  let w := world_of only_AAA (Some (Sheet three_rows)) in
  exists df',
    Forall2 metrics_only three_rows df' /\
    fst (download_updated
           (snd (update_excel Ascii7.strip Ascii7.int_of_str w))) =
      Ok (attachment UPDATED_PATH (Sheet df')) /\
    (exists w', synced Ascii7.strip Ascii7.int_of_str w three_rows df' w') /\
    (forall other w2,
        synced Ascii7.strip Ascii7.int_of_str w three_rows other w2 ->
        other = df').
Proof.
  apply (X21_download_sends_the_new_snapshot Ascii7.strip Ascii7.int_of_str
           (world_of only_AAA (Some (Sheet three_rows))) three_rows);
    reflexivity.
Defined.

Lemma X22_witness :
  let w :=
    relock locked
      (with_snapshot (Sheet without_urls)
         (world_of only_AAA (Some (Sheet three_rows)))) in
  (exists u fl,
      fst (update_excel Ascii7.strip Ascii7.int_of_str w) =
        Ok (result_all u (List.length three_rows) fl true)) /\
  fst (download_updated (snd (update_excel Ascii7.strip Ascii7.int_of_str w))) =
    Ok (attachment UPDATED_PATH (Sheet without_urls)).
Proof.
  apply (X22_skipped_save_leaves_the_old_snapshot Ascii7.strip
           Ascii7.int_of_str
           (relock locked
              (with_snapshot (Sheet without_urls)
                 (world_of only_AAA (Some (Sheet three_rows)))))
           three_rows (Exn PermissionError "Permission denied")
           (Sheet without_urls)); reflexivity.
Defined.

Lemma X23_witness :
  let f := add_form "pratik123" "Chitra Das"
             "scholar.google.com/citations?user=DDD" in
  let w := world_of only_AAA (Some (Sheet without_urls)) in
  let w1 := snd (add_faculty Ascii7.strip f w) in
  fst (add_faculty Ascii7.strip f w) =
    Ok (result_one_message "Faculty 'Chitra Das' added successfully.") /\
  exists u fl ready,
    fst (update_excel Ascii7.strip Ascii7.int_of_str w1) =
      Ok (result_all u 3 fl ready) /\
    In "Chitra Das" fl /\
    calls (trace (snd (update_excel Ascii7.strip Ascii7.int_of_str w1))) <= 0.
Proof.
  apply (X23_url_without_scheme_is_added_but_never_synced Ascii7.strip
           Ascii7.int_of_str
           (add_form "pratik123" "Chitra Das"
              "scholar.google.com/citations?user=DDD")
           (world_of only_AAA (Some (Sheet without_urls))) without_urls);
    try reflexivity; vm_compute; discriminate.
Defined.

Lemma X24_witness :
  (forall r, In r three_rows -> usable Ascii7.strip r = false ->
             In (name_of r) ["B"; "C"]) /\
  1 <= List.length (filter (usable Ascii7.strip) three_rows).
Proof.
  apply (X24_unusable_rows_are_reported_failed Ascii7.strip Ascii7.int_of_str
           (world_of only_AAA (Some (Sheet three_rows))) three_rows
           1 3 ["B"; "C"] true); reflexivity.
Defined.
